(** * dynamodb-data-loader: a shallow embedding of [main.py]

    The script reads a JSON template, substitutes [$UUID], [$NOW], [$BUILD]
    and [$FOO] once per item, decodes the text with [json.loads] and either
    hands the item to boto3's batch writer or prints it.

    Strings are byte strings holding the UTF-8 encoding of the Python text.
    The Python library functions the script calls ([string.Template],
    [json.loads], [int], [bool], [datetime]) are embedded from their CPython
    definitions; the operating system and the remote store are an explicit
    environment and an interface. *)

From Stdlib Require Import ZArith Ascii String List Bool Lia.
From Stdlib Require DecimalString DecimalZ DecimalPos.
From stdpp Require Import base option list strings gmap.

Local Open Scope string_scope.
Local Open Scope list_scope.
Local Open Scope Z_scope.

(** ** Python exceptions and results *)

Inductive exn : Type :=
  | KeyError (key : string)
  | ValueError (msg : string)
  | JSONDecodeError (msg : string)
  | OverflowError (msg : string)
  | OSError (msg : string)
  | ClientError (msg : string)
  | UsageExit.   (* [parser.error]: usage on stderr, then [sys.exit(2)] *)

Inductive result (A : Type) : Type :=
  | Ok (a : A)
  | Raise (e : exn).
Arguments Ok {A} a.
Arguments Raise {A} e.

Definition is_ok {A} (r : result A) : bool :=
  match r with Ok _ => true | Raise _ => false end.

Definition rbind {A B} (r : result A) (f : A -> result B) : result B :=
  match r with Ok a => f a | Raise e => Raise e end.

(** The status the interpreter exits with: 0 when [main] returns, 2 when
    [argparse] rejects the command line, 1 for any other uncaught exception. *)
Definition exit_status {A} (r : result A) : Z :=
  match r with
  | Ok _ => 0
  | Raise UsageExit => 2
  | Raise _ => 1
  end.

(** ** Values put into the substitution mapping *)

Inductive py_value : Type :=
  | PyStr (s : string)
  | PyInt (z : Z).

(** [str(n)] for an [int]. *)
Definition str_of_int (z : Z) : string :=
  DecimalString.NilZero.string_of_int (Z.to_int z).

(** [str(v)], as [Template.substitute] applies it to a looked-up value. *)
Definition py_str (v : py_value) : string :=
  match v with
  | PyStr s => s
  | PyInt z => str_of_int z
  end.

(** [bool(s)] for a [str]: true exactly for the non-empty strings. *)
Definition py_bool (s : string) : bool :=
  match s with
  | EmptyString => false
  | String _ _ => true
  end.

(** ** Characters *)

Definition code (c : ascii) : Z := Z.of_N (N_of_ascii c).

Definition in_range (lo hi : string) (c : ascii) : bool :=
  match lo, hi with
  | String l _, String h _ => ((code l <=? code c) && (code c <=? code h))%Z
  | _, _ => false
  end.

Definition is_digit (c : ascii) : bool := in_range "0" "9" c.

(** [[_a-z]] and [[_a-z0-9]] under [re.IGNORECASE] with the ASCII flag. *)
Definition is_id_start (c : ascii) : bool :=
  in_range "a" "z" c || in_range "A" "Z" c || (code c =? 95)%Z.

Definition is_id_char (c : ascii) : bool := is_id_start c || is_digit c.

(** ** [string.Template]

    [Template.pattern] is
    [\$(?:(?P<escaped>\$)|(?P<named>id)|{(?P<braced>id)}|(?P<invalid>))]
    with [id = [_a-z][_a-z0-9]*]. [pieces] lists, left to right, the literal
    characters and the matches [re.sub] meets in the template. *)

Inductive piece : Type :=
  | Lit (c : ascii)
  | Escaped
  | Named (name : string)
  | Braced (name : string)
  | Invalid.

(** Where the scan stands: in plain text, just after a [$], inside [$name],
    or inside [${name]. Names are accumulated in reverse. *)
Inductive scan_mode : Type :=
  | InText
  | AfterDollar
  | InNamed (acc : list ascii)
  | InBraced (acc : list ascii).

Definition string_of_rev (acc : list ascii) : string :=
  string_of_list_ascii (rev acc).

Definition dollar : ascii := "$"%char.

(** A character met in plain text. *)
Definition text_step (c : ascii) : list piece * scan_mode :=
  if Ascii.eqb c dollar then ([], AfterDollar) else ([Lit c], InText).

(** [${acc] did not become [${name}]: the match at [$] is the empty
    [invalid] group and the characters after it are plain text again. *)
Definition unbrace (acc : list ascii) : list piece :=
  Invalid :: Lit "{"%char :: map Lit (rev acc).

Definition scan_step (m : scan_mode) (c : ascii) : list piece * scan_mode :=
  match m with
  | InText => text_step c
  | AfterDollar =>
      if Ascii.eqb c dollar then ([Escaped], InText)
      else if is_id_start c then ([], InNamed [c])
      else if Ascii.eqb c "{"%char then ([], InBraced [])
      else let '(ps, m') := text_step c in (Invalid :: ps, m')
  | InNamed acc =>
      if is_id_char c then ([], InNamed (c :: acc))
      else let '(ps, m') := text_step c in
           (Named (string_of_rev acc) :: ps, m')
  | InBraced acc =>
      match acc with
      | [] =>
          if is_id_start c then ([], InBraced [c])
          else let '(ps, m') := text_step c in (unbrace [] ++ ps, m')
      | _ :: _ =>
          if is_id_char c then ([], InBraced (c :: acc))
          else if Ascii.eqb c "}"%char then ([Braced (string_of_rev acc)], InText)
          else let '(ps, m') := text_step c in (unbrace acc ++ ps, m')
      end
  end.

Definition scan_end (m : scan_mode) : list piece :=
  match m with
  | InText => []
  | AfterDollar => [Invalid]
  | InNamed acc => [Named (string_of_rev acc)]
  | InBraced acc => unbrace acc
  end.

Fixpoint scan (m : scan_mode) (s : string) : list piece :=
  match s with
  | EmptyString => scan_end m
  | String c rest =>
      let '(ps, m') := scan_step m c in ps ++ scan m' rest
  end.

Definition pieces (template : string) : list piece := scan InText template.

(** [convert], the helper [substitute] passes to [re.sub]. *)
Definition convert (mapping : gmap string py_value) (p : piece) : result string :=
  match p with
  | Lit c => Ok (String c EmptyString)
  | Escaped => Ok "$"
  | Named name | Braced name =>
      match mapping !! name with
      | Some v => Ok (py_str v)
      | None => Raise (KeyError name)
      end
  | Invalid => Raise (ValueError "Invalid placeholder in string")
  end.

(** [re.sub] calls [convert] on the matches from left to right; the first
    exception ends the substitution. *)
Fixpoint convert_all (mapping : gmap string py_value) (ps : list piece)
  : result string :=
  match ps with
  | [] => Ok EmptyString
  | p :: ps' =>
      rbind (convert mapping p) (fun s =>
      rbind (convert_all mapping ps') (fun t => Ok (s +:+ t)))
  end.

Definition substitute (mapping : gmap string py_value) (template : string)
  : result string :=
  convert_all mapping (pieces template).

(** The names [main] gives a value to. *)
Definition supported : list string := ["UUID"; "NOW"; "BUILD"; "FOO"].

(** The names a template refers to, as [$name] or [${name}]. *)
Definition placeholder_names (ps : list piece) : list string :=
  omap (fun p => match p with
                 | Named name | Braced name => Some name
                 | _ => None
                 end) ps.

Definition references (template name : string) : Prop :=
  In name (placeholder_names (pieces template)).

(** The mapping [main] builds at each iteration. *)
Definition template_vars (uuid : string) (now build : Z) : gmap string py_value :=
  <["UUID" := PyStr uuid]> (<["NOW" := PyInt now]>
  (<["BUILD" := PyInt build]> (<["FOO" := PyStr "BAR"]> ∅))).

(** ** The text of an item, as the specification describes it

    The template with every [$UUID], [$NOW], [$BUILD] and [$FOO] (braced or
    not) replaced by the text of its value, and [$$] by one dollar sign. *)

Definition placeholder_text (uuid : string) (now build : Z) (name : string)
  : string :=
  if String.eqb name "UUID" then uuid
  else if String.eqb name "NOW" then str_of_int now
  else if String.eqb name "BUILD" then str_of_int build
  else if String.eqb name "FOO" then "BAR"
  else EmptyString.

Definition piece_text (uuid : string) (now build : Z) (p : piece) : string :=
  match p with
  | Lit c => String c EmptyString
  | Escaped => "$"
  | Named name | Braced name => placeholder_text uuid now build name
  | Invalid => EmptyString
  end.

Definition rendered_text (uuid : string) (now build : Z) (template : string)
  : string :=
  fold_right (fun p rest => piece_text uuid now build p +:+ rest) EmptyString
    (pieces template).

(** Examples write JSON text with apostrophes; [dq] turns them into the
    double quotes JSON wants. *)
Definition dq_char (c : ascii) : ascii :=
  if Ascii.eqb c "'"%char then ascii_of_nat 34 else c.

Fixpoint dq (s : string) : string :=
  match s with
  | EmptyString => EmptyString
  | String c rest => String (dq_char c) (dq rest)
  end.

(** ** [int(s)] for a [str]

    A [str] is held as its UTF-8 bytes. [int] first brings the text to
    ASCII ([_PyUnicode_TransformDecimalAndSpaceToASCII]): ASCII characters
    stay, any other white space becomes a blank, any other decimal digit
    becomes its ASCII digit, and the first character that is none of these
    becomes a question mark, where the text is cut. [PyLong_FromString] then
    reads base 10: blanks on both sides, one optional sign, digits with
    single underscores between them, and the interpreter's default limit of
    4300 digits. *)

(** The white space beyond ASCII ([Py_UNICODE_ISSPACE]), by code point. *)
Definition unicode_spaces : list Z :=
  [
    133; 160; 5760; 8192; 8193; 8194; 8195; 8196; 8197; 8198; 8199; 8200;
    8201; 8202; 8232; 8233; 8239; 8287; 12288
  ].

(** The digit zero of each run of ten decimal digits beyond ASCII
    ([Py_UNICODE_TODECIMAL], Unicode 14.0, the database of Python 3.11). *)
Definition decimal_zeros : list Z :=
  [
    1632; 1776; 1984; 2406; 2534; 2662; 2790; 2918; 3046; 3174; 3302; 3430;
    3558; 3664; 3792; 3872; 4160; 4240; 6112; 6160; 6470; 6608; 6784; 6800;
    6992; 7088; 7232; 7248; 42528; 43216; 43264; 43472; 43504; 43600; 44016;
    65296; 66720; 68912; 69734; 69872; 69942; 70096; 70384; 70736; 70864;
    71248; 71360; 71472; 71904; 72016; 72784; 73040; 73120; 92768; 92864;
    93008; 120782; 120792; 120802; 120812; 120822; 123200; 123632; 125264;
    130032
  ].

Definition is_unicode_space (cp : Z) : bool :=
  existsb (Z.eqb cp) unicode_spaces.

Definition to_decimal (cp : Z) : option Z :=
  match find (fun zero => (zero <=? cp) && (cp <=? zero + 9)) decimal_zeros with
  | Some zero => Some (cp - zero)
  | None => None
  end.

(** A continuation byte of UTF-8. *)
Definition is_continuation (c : ascii) : bool :=
  (128 <=? code c) && (code c <=? 191).

(** The code points of well-formed sequences of two, three and four bytes:
    shortest form only, no surrogate, nothing past U+10FFFF. Any other byte
    reaches the [str] as a lone surrogate. *)
Definition decode2 (b0 b1 : ascii) : option Z :=
  if (194 <=? code b0) && (code b0 <=? 223) && is_continuation b1
  then Some ((code b0 - 192) * 64 + (code b1 - 128))
  else None.

Definition decode3 (b0 b1 b2 : ascii) : option Z :=
  let cp := (code b0 - 224) * 4096 + (code b1 - 128) * 64 + (code b2 - 128) in
  if (224 <=? code b0) && (code b0 <=? 239)
     && is_continuation b1 && is_continuation b2
     && (2048 <=? cp) && negb ((55296 <=? cp) && (cp <=? 57343))
  then Some cp
  else None.

Definition decode4 (b0 b1 b2 b3 : ascii) : option Z :=
  let cp := (code b0 - 240) * 262144 + (code b1 - 128) * 4096
            + (code b2 - 128) * 64 + (code b3 - 128) in
  if (240 <=? code b0) && (code b0 <=? 244)
     && is_continuation b1 && is_continuation b2 && is_continuation b3
     && (65536 <=? cp) && (cp <=? 1114111)
  then Some cp
  else None.

(** What a character beyond ASCII becomes, before the rest of the text. *)
Definition transformed (cp : Z) (rest : string) : string :=
  if is_unicode_space cp then String " "%char rest
  else match to_decimal cp with
       | Some d => String (ascii_of_N (Z.to_N (48 + d))) rest
       | None => "?"
       end.

Fixpoint transform_decimal_and_space_to_ascii (s : string) : string :=
  match s with
  | EmptyString => EmptyString
  | String b0 rest0 =>
      if code b0 <? 128
      then String b0 (transform_decimal_and_space_to_ascii rest0)
      else
        match rest0 with
        | EmptyString => "?"
        | String b1 rest1 =>
            match decode2 b0 b1 with
            | Some cp => transformed cp (transform_decimal_and_space_to_ascii rest1)
            | None =>
                match rest1 with
                | EmptyString => "?"
                | String b2 rest2 =>
                    match decode3 b0 b1 b2 with
                    | Some cp =>
                        transformed cp (transform_decimal_and_space_to_ascii rest2)
                    | None =>
                        match rest2 with
                        | EmptyString => "?"
                        | String b3 rest3 =>
                            match decode4 b0 b1 b2 b3 with
                            | Some cp =>
                                transformed cp
                                  (transform_decimal_and_space_to_ascii rest3)
                            | None => "?"
                            end
                        end
                    end
                end
            end
        end
  end.

Definition is_space (c : ascii) : bool :=
  ((9 <=? code c) && (code c <=? 13)) || (code c =? 32).

Fixpoint lstrip (s : string) : string :=
  match s with
  | EmptyString => EmptyString
  | String c rest => if is_space c then lstrip rest else s
  end.

Definition digit_value (c : ascii) : Z := code c - 48.

(** Reads digits and underscores; [prev] tells that the last character was an
    underscore, [acc] is the value and [n] the number of digits so far. *)
Fixpoint scan_digits (s : string) (prev : bool) (acc : Z) (n : nat)
  : option (Z * nat * string) :=
  match s with
  | String c rest =>
      if is_digit c then scan_digits rest false (10 * acc + digit_value c) (S n)
      else if Ascii.eqb c "_"%char then
        if prev then None else scan_digits rest true acc n
      else if prev then None else Some (acc, n, s)
  | EmptyString => if prev then None else Some (acc, n, s)
  end.

Definition max_str_digits : nat := 4300.

Definition invalid_literal : exn := ValueError "invalid literal for int() with base 10".

Definition scan_unsigned (s : string) : result Z :=
  match s with
  | String c _ =>
      if Ascii.eqb c "_"%char then Raise invalid_literal
      else
        match scan_digits s false 0 0 with
        | Some (v, n, rest) =>
            if (n =? 0)%nat then Raise invalid_literal
            else if (max_str_digits <? n)%nat
            then Raise (ValueError "Exceeds the limit (4300 digits) for integer string conversion")
            else match lstrip rest with
                 | EmptyString => Ok v
                 | String _ _ => Raise invalid_literal
                 end
        | None => Raise invalid_literal
        end
  | EmptyString => Raise invalid_literal
  end.

Definition long_from_string (s : string) : result Z :=
  match lstrip s with
  | String c rest =>
      if Ascii.eqb c "-"%char then rbind (scan_unsigned rest) (fun v => Ok (- v))
      else if Ascii.eqb c "+"%char then scan_unsigned rest
      else scan_unsigned (String c rest)
  | EmptyString => Raise invalid_literal
  end.

Definition py_int (s : string) : result Z :=
  long_from_string (transform_decimal_and_space_to_ascii s).

(** ** The command line

    [argparse] scans [sys.argv]; what it hands to the declarations of
    [_get_args] is, for each option, the text given for it, if any. A
    command line that [argparse] ends by itself (an unknown option, an
    option without its value, a stray argument, [-h]) never reaches these
    declarations and is not among the values of [command_line]. *)

Record command_line : Type := {
  opt_file : option string;
  opt_table : option string;
  opt_number : option string;
  opt_commit : option string
}.

Record Namespace : Type := {
  file : string;
  table : string;
  number : string;
  commit : bool
}.

(** [-f], [-t] and [-n] are required and kept as text; [--commit] has
    [default=False] and [type=bool], so a given text goes through [bool]. *)
Definition _get_args (argv : command_line) : result Namespace :=
  match opt_file argv, opt_table argv, opt_number argv with
  | Some f, Some t, Some n =>
      Ok {| file := f; table := t; number := n;
            commit := match opt_commit argv with
                      | Some s => py_bool s
                      | None => false
                      end |}
  | _, _, _ => Raise UsageExit
  end.

(** ** [datetime] and [float]

    An aware UTC [datetime] is its number of microseconds since the epoch;
    [datetime.min] and [datetime.max] bound it. *)

Definition us_per_second : Z := 1000000.
Definition datetime_min : Z := -62135596800 * us_per_second.
Definition datetime_max : Z := 253402300799 * us_per_second + 999999.

Definition in_datetime_range (us : Z) : bool :=
  (datetime_min <=? us) && (us <=? datetime_max).

(** [timedelta(minutes=m)], in microseconds; its days are bounded. *)
Definition timedelta_minutes (m : Z) : result Z :=
  let us := m * 60 * us_per_second in
  let days := us / (86400 * us_per_second) in
  if (-999999999 <=? days) && (days <=? 999999999) then Ok us
  else Raise (OverflowError "days must have magnitude <= 999999999").

(** [dt + delta]. *)
Definition datetime_add (dt delta : Z) : result Z :=
  if in_datetime_range (dt + delta) then Ok (dt + delta)
  else Raise (OverflowError "date value out of range").

(** A finite binary64 value [mant * 2 ^ expo]. *)
Record float : Type := { mant : Z; expo : Z }.

(** The integer nearest to [n / d], ties to even ([0 < d]). *)
Definition round_half_even (n d : Z) : Z :=
  let q := n / d in
  let r := n mod d in
  if 2 * r <? d then q
  else if d <? 2 * r then q + 1
  else if Z.even q then q else q + 1.

(** [floor (log2 (a / b))] for positive [a] and [b]. *)
Definition ilog2_ratio (a b : Z) : Z :=
  let e := Z.log2 a - Z.log2 b in
  let below := if 0 <=? e then a <? b * 2 ^ e else a * 2 ^ (- e) <? b in
  if below then e - 1 else e.

(** [a / b] on [int]s ([0 < b]): the quotient rounded once to 53 bits. The
    quotients [timestamp] forms are in the normal range of binary64. *)
Definition true_divide (a b : Z) : float :=
  if a =? 0 then {| mant := 0; expo := 0 |}
  else
    let s := ilog2_ratio (Z.abs a) b - 52 in
    let m := if s <=? 0 then round_half_even (Z.abs a * 2 ^ (- s)) b
             else round_half_even (Z.abs a) (b * 2 ^ s) in
    {| mant := Z.sgn a * m; expo := s |}.

(** [int(x)] for a [float]: truncation toward zero. *)
Definition int_of_float (x : float) : Z :=
  if 0 <=? expo x then mant x * 2 ^ expo x
  else Z.quot (mant x) (2 ^ (- expo x)).

(** [dt.timestamp()] for an aware [datetime]:
    [(dt - epoch).total_seconds()], microseconds over [10**6]. *)
Definition timestamp (dt : Z) : float := true_divide dt us_per_second.

#[local] Set Warnings "-register-all".

(** ** [json.loads]

    The decoded value. A [float] is kept as the text [float()] is applied to
    (also for [NaN], [Infinity] and [-Infinity]); a [dict] keeps its keys in
    insertion order. *)

Inductive json : Type :=
  | JNull
  | JBool (b : bool)
  | JInt (z : Z)
  | JFloat (lexeme : string)
  | JStr (s : string)
  | JList (items : list json)
  | JDict (entries : list (string * json)).

(** [d[k] = v]: a key already present keeps its place. *)
Fixpoint dict_set (k : string) (v : json) (d : list (string * json))
  : list (string * json) :=
  match d with
  | [] => [(k, v)]
  | (k', v') :: d' =>
      if String.eqb k k' then (k, v) :: d' else (k', v') :: dict_set k v d'
  end.

Definition expecting (what : string) : exn := JSONDecodeError ("Expecting " +:+ what).

Definition is_json_space (c : ascii) : bool :=
  (code c =? 32) || (code c =? 9) || (code c =? 10) || (code c =? 13).

Fixpoint skip_ws (s : string) : string :=
  match s with
  | EmptyString => EmptyString
  | String c rest => if is_json_space c then skip_ws rest else s
  end.

(** [s.startswith(p)], giving what follows [p]. *)
Fixpoint strip_prefix (p s : string) : option string :=
  match p, s with
  | EmptyString, _ => Some s
  | String a p', String b s' => if Ascii.eqb a b then strip_prefix p' s' else None
  | String _ _, EmptyString => None
  end.

Definition hex_value (c : ascii) : option Z :=
  if is_digit c then Some (code c - 48)
  else if in_range "a" "f" c then Some (code c - 87)
  else if in_range "A" "F" c then Some (code c - 55)
  else None.

Definition hex4 (s : string) : option (Z * string) :=
  match s with
  | String a (String b (String c (String d rest))) =>
      match hex_value a, hex_value b, hex_value c, hex_value d with
      | Some x, Some y, Some z, Some w => Some (((x * 16 + y) * 16 + z) * 16 + w, rest)
      | _, _, _, _ => None
      end
  | _ => None
  end.

Definition byte (z : Z) : ascii := ascii_of_N (Z.to_N z).
Definition char1 (c : ascii) : string := String c EmptyString.

(** The UTF-8 bytes of a code point (a lone surrogate gets the three bytes
    the same scheme gives it). *)
Definition utf8 (cp : Z) : string :=
  let cont (shift : Z) := byte (Z.lor 128 (Z.land (Z.shiftr cp shift) 63)) in
  if cp <? 128 then char1 (byte cp)
  else if cp <? 2048 then
    String (byte (Z.lor 192 (Z.shiftr cp 6))) (char1 (cont 0))
  else if cp <? 65536 then
    String (byte (Z.lor 224 (Z.shiftr cp 12))) (String (cont 6) (char1 (cont 0)))
  else
    String (byte (Z.lor 240 (Z.shiftr cp 18)))
      (String (cont 12) (String (cont 6) (char1 (cont 0)))).

Definition is_high_surrogate (cp : Z) : bool := (55296 <=? cp) && (cp <=? 56319).
Definition is_low_surrogate (cp : Z) : bool := (56320 <=? cp) && (cp <=? 57343).
Definition join_surrogates (hi lo : Z) : Z :=
  65536 + Z.lor (Z.shiftl (hi - 55296) 10) (lo - 56320).

(** The character a backslash escape other than [\u] stands for. *)
Definition escape_char (c : ascii) : option ascii :=
  if Ascii.eqb c "/"%char then Some c
  else if Ascii.eqb c "\"%char then Some c
  else if (code c =? 34) then Some c
  else if Ascii.eqb c "b"%char then Some (byte 8)
  else if Ascii.eqb c "f"%char then Some (byte 12)
  else if Ascii.eqb c "n"%char then Some (byte 10)
  else if Ascii.eqb c "r"%char then Some (byte 13)
  else if Ascii.eqb c "t"%char then Some (byte 9)
  else None.

Definition bad_u_escape : exn := JSONDecodeError "Invalid \uXXXX escape".
Definition unterminated : exn := JSONDecodeError "Unterminated string".

(** [scanstring], strict: [s] starts after the opening quote and [out] is
    the text decoded so far. *)
Fixpoint scanstring (fuel : nat) (s : string) (out : string)
  : result (string * string) :=
  match fuel, s with
  | O, _ => Raise unterminated
  | _, EmptyString => Raise unterminated
  | S fuel', String c rest =>
      if code c =? 34 then Ok (out, rest)
      else if Ascii.eqb c "\"%char then
        match rest with
        | EmptyString => Raise unterminated
        | String e rest1 =>
            if Ascii.eqb e "u"%char then
              match hex4 rest1 with
              | None => Raise bad_u_escape
              | Some (cp, rest2) =>
                  let alone := scanstring fuel' rest2 (out +:+ utf8 cp) in
                  if is_high_surrogate cp then
                    match strip_prefix "\u" rest2 with
                    | None => alone
                    | Some rest3 =>
                        match hex4 rest3 with
                        | None => Raise bad_u_escape
                        | Some (cp2, rest4) =>
                            if is_low_surrogate cp2
                            then scanstring fuel' rest4
                                   (out +:+ utf8 (join_surrogates cp cp2))
                            else alone
                        end
                    end
                  else alone
              end
            else
              match escape_char e with
              | Some ch => scanstring fuel' rest1 (out +:+ char1 ch)
              | None => Raise (JSONDecodeError "Invalid \escape")
              end
        end
      else if code c <=? 31 then Raise (JSONDecodeError "Invalid control character")
      else scanstring fuel' rest (out +:+ char1 c)
  end.

(** The longest prefix of digits, and what follows it. *)
Fixpoint take_digits (s : string) : string * string :=
  match s with
  | String c rest =>
      if is_digit c then let '(ds, r) := take_digits rest in (String c ds, r)
      else (EmptyString, s)
  | EmptyString => (EmptyString, EmptyString)
  end.

Fixpoint digits_value (ds : string) (acc : Z) : Z :=
  match ds with
  | EmptyString => acc
  | String c rest => digits_value rest (10 * acc + digit_value c)
  end.

(** An optional minus, then [0] or a digit run not starting with [0]: sign,
    digits and rest. *)
Definition match_integer (s : string) : option (bool * string * string) :=
  let '(neg, s1) := match strip_prefix "-" s with
                    | Some r => (true, r)
                    | None => (false, s)
                    end in
  match s1 with
  | String c rest =>
      if Ascii.eqb c "0"%char then Some (neg, "0", rest)
      else if is_digit c then
        let '(ds, r) := take_digits rest in Some (neg, String c ds, r)
      else None
  | EmptyString => None
  end.

(** [(\.[0-9]+)?] *)
Definition match_fraction (s : string) : string * string :=
  match s with
  | String dot (String d rest) =>
      if Ascii.eqb dot "."%char && is_digit d then
        let '(ds, r) := take_digits rest in (String dot (String d ds), r)
      else (EmptyString, s)
  | _ => (EmptyString, s)
  end.

(** [([eE][-+]?[0-9]+)?] *)
Definition match_exponent (s : string) : string * string :=
  match s with
  | String e rest =>
      if Ascii.eqb e "e"%char || Ascii.eqb e "E"%char then
        let '(sign, r1) :=
          match rest with
          | String g r =>
              if Ascii.eqb g "-"%char || Ascii.eqb g "+"%char
              then (char1 g, r) else (EmptyString, rest)
          | EmptyString => (EmptyString, rest)
          end in
        match take_digits r1 with
        | (EmptyString, _) => (EmptyString, s)
        | (ds, r2) => (String e (sign +:+ ds), r2)
        end
      else (EmptyString, s)
  | EmptyString => (EmptyString, s)
  end.

Definition match_number (s : string) : result (json * string) :=
  match match_integer s with
  | None => Raise (expecting "value")
  | Some (neg, ds, r0) =>
      let '(frac, r1) := match_fraction r0 in
      let '(ex, r2) := match_exponent r1 in
      let sign := if neg then "-" else EmptyString in
      match frac +:+ ex with
      | EmptyString =>
          if (max_str_digits <? String.length ds)%nat
          then Raise (ValueError "Exceeds the limit (4300 digits) for integer string conversion")
          else Ok (JInt (if neg then - digits_value ds 0 else digits_value ds 0), r2)
      | String _ _ => Ok (JFloat (sign +:+ ds +:+ frac +:+ ex), r2)
      end
  end.

(** The words the scanner accepts besides numbers. *)
Definition constants : list (string * json) :=
  [("null", JNull); ("true", JBool true); ("false", JBool false);
   ("NaN", JFloat "NaN"); ("Infinity", JFloat "Infinity");
   ("-Infinity", JFloat "-Infinity")].

Fixpoint match_constant (cs : list (string * json)) (s : string)
  : option (json * string) :=
  match cs with
  | [] => None
  | (w, v) :: cs' =>
      match strip_prefix w s with
      | Some rest => Some (v, rest)
      | None => match_constant cs' s
      end
  end.

(** [scan_once] with [JSONObject] and [JSONArray]; each call reads at least
    one character, so the length of the text is fuel enough. (The recursion
    limit of the interpreter, which a text nested some thousand levels deep
    would meet, is not part of the model.) *)
Fixpoint scan_once (fuel : nat) (s : string) : result (json * string) :=
  match fuel, s with
  | O, _ => Raise (expecting "value")
  | _, EmptyString => Raise (expecting "value")
  | S fuel', String c rest =>
      if code c =? 34 then
        rbind (scanstring (S (String.length rest)) rest EmptyString)
          (fun '(str, r) => Ok (JStr str, r))
      else if Ascii.eqb c "{"%char then
        match skip_ws rest with
        | String c1 r1 =>
            if Ascii.eqb c1 "}"%char then Ok (JDict [], r1)
            else parse_pairs fuel' (String c1 r1) []
        | EmptyString => parse_pairs fuel' EmptyString []
        end
      else if Ascii.eqb c "["%char then
        match skip_ws rest with
        | String c1 r1 =>
            if Ascii.eqb c1 "]"%char then Ok (JList [], r1)
            else parse_items fuel' (String c1 r1) []
        | EmptyString => parse_items fuel' EmptyString []
        end
      else
        match match_constant constants s with
        | Some found => Ok found
        | None => match_number s
        end
  end

with parse_pairs (fuel : nat) (s : string) (acc : list (string * json))
  : result (json * string) :=
  match fuel, s with
  | O, _ => Raise (expecting "property name enclosed in double quotes")
  | S fuel', String q rest =>
      if code q =? 34 then
        rbind (scanstring (S (String.length rest)) rest EmptyString) (fun '(key, r1) =>
        match skip_ws r1 with
        | String colon r2 =>
            if Ascii.eqb colon ":"%char then
              rbind (scan_once fuel' (skip_ws r2)) (fun '(val, r3) =>
              let acc' := dict_set key val acc in
              match skip_ws r3 with
              | String d r4 =>
                  if Ascii.eqb d "}"%char then Ok (JDict acc', r4)
                  else if Ascii.eqb d ","%char then parse_pairs fuel' (skip_ws r4) acc'
                  else Raise (expecting "',' delimiter")
              | EmptyString => Raise (expecting "',' delimiter")
              end)
            else Raise (expecting "':' delimiter")
        | EmptyString => Raise (expecting "':' delimiter")
        end)
      else Raise (expecting "property name enclosed in double quotes")
  | S _, EmptyString => Raise (expecting "property name enclosed in double quotes")
  end

with parse_items (fuel : nat) (s : string) (acc : list json)
  : result (json * string) :=
  match fuel with
  | O => Raise (expecting "value")
  | S fuel' =>
      rbind (scan_once fuel' s) (fun '(val, r1) =>
      let acc' := acc ++ [val] in
      match skip_ws r1 with
      | String d r2 =>
          if Ascii.eqb d "]"%char then Ok (JList acc', r2)
          else if Ascii.eqb d ","%char then parse_items fuel' (skip_ws r2) acc'
          else Raise (expecting "',' delimiter")
      | EmptyString => Raise (expecting "',' delimiter")
      end)
  end.

(** The three bytes of U+FEFF. *)
Definition bom : string := String (byte 239) (String (byte 187) (char1 (byte 191))).

Definition json_loads (s : string) : result json :=
  match strip_prefix bom s with
  | Some _ => Raise (JSONDecodeError "Unexpected UTF-8 BOM (decode using utf-8-sig)")
  | None =>
      rbind (scan_once (S (String.length s)) (skip_ws s)) (fun '(obj, rest) =>
      match skip_ws rest with
      | EmptyString => Ok obj
      | String _ _ => Raise (JSONDecodeError "Extra data")
      end)
  end.

(** ** The environment

    What the script reads from the operating system and the interpreter:
    the file system, the identifiers [uuid.uuid4] draws, the clock, and the
    text an f-string gives for a decoded item. *)

Record env : Type := {
  read_text : string -> result string;   (* [open(path).read()] *)
  uuid4 : nat -> string;                 (* [str(uuid.uuid4())], by call *)
  utcnow : nat -> Z;                     (* the clock by reading, in microseconds *)
  format_item : json -> string           (* [f'{item}'] *)
}.

(** ** The batching write interface

    boto3's [Table.batch_writer()] is used through three operations; each
    may leave the store changed and may raise. [requests] and [rows] observe
    the store: the network requests issued and the rows written so far. *)

Class BatchWriter (B : Type) : Type := {
  batch_writer : B -> B;                    (* [table.batch_writer().__enter__()] *)
  put_item : json -> B -> option exn * B;   (* [batch.put_item(Item=item)] *)
  batch_exit : B -> option exn * B;         (* [batch.__exit__(...)] *)
  requests : B -> list (list json);
  rows : B -> list json
}.

(** What the interface promises whatever it buffers: closing a session that
    was given nothing sends nothing, and no operation removes a row. *)
Class BatchWriterLaws (B : Type) `{BatchWriter B} : Prop := {
  idle_session_ok : forall b, fst (batch_exit (batch_writer b)) = None;
  idle_session_silent : forall b,
    requests (snd (batch_exit (batch_writer b))) = requests b;
  enter_keeps_rows : forall b, rows (batch_writer b) = rows b;
  put_keeps_rows : forall item b, rows b `prefix_of` rows (snd (put_item item b));
  exit_keeps_rows : forall b, rows b `prefix_of` rows (snd (batch_exit b))
}.

(** The calls the script makes to the store and to the template, as a run
    logs them; the store calls carry the exception they raised, if any. *)
Inductive call : Type :=
  | Enter
  | Put (item : json) (raised : option exn)
  | Exit (raised : option exn)
  | Substitute (mapping : gmap string py_value).

(** The calls made inside a session, between [Enter] and [Exit]. *)
Definition in_session (c : call) : bool :=
  match c with
  | Put _ _ | Substitute _ => true
  | Enter | Exit _ => false
  end.

(** ** The world a run acts on *)

Record world (B : Type) : Type := {
  stdout : list string;      (* the lines printed *)
  store : B;                 (* the remote table and its client *)
  uuid_calls : nat;          (* identifiers drawn *)
  clock_reads : nat;         (* clock readings taken *)
  log : list (call * B)      (* each call with the store it left *)
}.
Arguments stdout {B} w.
Arguments store {B} w.
Arguments uuid_calls {B} w.
Arguments clock_reads {B} w.
Arguments log {B} w.

Definition initial {B} (s : B) : world B :=
  {| stdout := []; store := s; uuid_calls := 0; clock_reads := 0; log := [] |}.

Definition puts {B} (l : list (call * B)) : list (json * option exn) :=
  omap (fun e => match fst e with Put item r => Some (item, r) | _ => None end) l.

Definition substitutions {B} (l : list (call * B)) : list (gmap string py_value) :=
  omap (fun e => match fst e with Substitute m => Some m | _ => None end) l.

Definition exits {B} (l : list (call * B)) : list (option exn) :=
  omap (fun e => match fst e with Exit r => Some r | _ => None end) l.

(** A computation: a result or an exception, and the world it leaves. *)
Definition M (B A : Type) : Type := world B -> result A * world B.

Definition ret {B A} (a : A) : M B A := fun w => (Ok a, w).

Definition bind {B A C} (m : M B A) (f : A -> M B C) : M B C :=
  fun w => match m w with
           | (Ok a, w') => f a w'
           | (Raise e, w') => (Raise e, w')
           end.

Definition lift {B A} (r : result A) : M B A := fun w => (r, w).

Notation "'let!' x ':=' m 'in' k" := (bind m (fun x => k))
  (at level 10, x name, m at level 100, k at level 200).
Notation "'run!' m 'in' k" := (bind m (fun _ => k))
  (at level 10, m at level 100, k at level 200).

Section Run.
Context {B : Type} `{BatchWriter B}.
Variable E : env.

Definition print (line : string) : M B unit := fun w =>
  (Ok tt, {| stdout := stdout w ++ [line]; store := store w;
             uuid_calls := uuid_calls w; clock_reads := clock_reads w;
             log := log w |}).

(** Appends a call to the log and installs the store it left. *)
Definition logged (c : call) (b : B) (w : world B) : world B :=
  {| stdout := stdout w; store := b; uuid_calls := uuid_calls w;
     clock_reads := clock_reads w; log := log w ++ [(c, b)] |}.

(** [str(uuid.uuid4())] *)
Definition uuid_uuid4 : M B string := fun w =>
  (Ok (uuid4 E (uuid_calls w)),
   {| stdout := stdout w; store := store w; uuid_calls := S (uuid_calls w);
      clock_reads := clock_reads w; log := log w |}).

(** [datetime.now(timezone.utc)] *)
Definition datetime_now : M B Z := fun w =>
  let us := utcnow E (clock_reads w) in
  (if in_datetime_range us then Ok us else Raise (ValueError "year is out of range"),
   {| stdout := stdout w; store := store w; uuid_calls := uuid_calls w;
      clock_reads := S (clock_reads w); log := log w |}).

Definition _get_future_timestamp_seconds (minutes : Z) : M B Z :=
  let! now := datetime_now in
  let! delta := lift (timedelta_minutes minutes) in
  let! dt := lift (datetime_add now delta) in
  ret (int_of_float (timestamp dt)).

(** [template.substitute(mapping)] *)
Definition template_substitute (mapping : gmap string py_value)
    (template : string) : M B string := fun w =>
  (substitute mapping template, logged (Substitute mapping) (store w) w).

(** [batch.put_item(Item=item)] *)
Definition batch_put_item (item : json) : M B unit := fun w =>
  let '(raised, b) := put_item item (store w) in
  (match raised with Some e => Raise e | None => Ok tt end,
   logged (Put item raised) b w).

(** [with table.batch_writer() as batch: body]: the session is entered,
    the body runs, and [__exit__] runs however the body ended; what
    [__exit__] raises replaces what the body raised. *)
Definition with_batch_writer (body : M B unit) : M B unit := fun w =>
  let b1 := batch_writer (store w) in
  let '(r, w2) := body (logged Enter b1 w) in
  let '(raised, b3) := batch_exit (store w2) in
  (match raised with Some e => Raise e | None => r end,
   logged (Exit raised) b3 w2).

(** [range(lo, hi)] *)
Definition range (lo hi : Z) : list Z :=
  map (fun k => lo + Z.of_nat k) (seq 0 (Z.to_nat (hi - lo))).

(** [for i in indices: body] *)
Fixpoint for_each (indices : list Z) (body : Z -> M B unit) : M B unit :=
  match indices with
  | [] => ret tt
  | i :: rest => run! body i in for_each rest body
  end.

Definition msg_prefix (args : Namespace) : string :=
  if negb (commit args) then "[DRY RUN] " else EmptyString.

(** One turn of the loop of [main]. *)
Definition loop_body (args : Namespace) (template : string) (i : Z) : M B unit :=
  run! (if i mod 1000 =? 0
        then print (msg_prefix args +:+ "Batch putting item " +:+ str_of_int i)
        else ret tt) in
  let! u := uuid_uuid4 in
  let! now := _get_future_timestamp_seconds 0 in
  let! text := template_substitute (template_vars u now i) template in
  let! item := lift (json_loads text) in
  if commit args then batch_put_item item
  else print (msg_prefix args +:+ "Templated item: " +:+ format_item E item).

(** [main]. [dynamodb.Table(args.table)] only builds the resource object:
    it reads nothing and sends nothing, so it leaves no trace here. The
    count is read by [int] inside the [with] statement, where the loop
    header evaluates it. *)
Definition main (args : Namespace) : M B unit :=
  run! print (msg_prefix args +:+ "Batch creating " +:+ number args
              +:+ " items using template " +:+ file args
              +:+ " into table " +:+ table args +:+ "...") in
  let! template := lift (read_text E (file args)) in
  run! with_batch_writer (
         let! n := lift (py_int (number args)) in
         for_each (range 1 (n + 1)) (loop_body args template)) in
  print (msg_prefix args +:+ "Done.").

(** [main(_get_args())] *)
Definition script (argv : command_line) : M B unit :=
  let! args := lift (_get_args argv) in
  main args.

End Run.

Arguments print {B} line w.
Arguments logged {B} c b w.

(** ** boto3's [BatchWriter] over a table

    [put_item] appends to [_items_buffer] and flushes when 25 requests are
    buffered; [_flush] sends the first 25 in one [batch_write_item] request;
    [__exit__] flushes until the buffer is empty. The service either accepts a
    request whole or refuses it with a [ClientError]. *)

Record table_store : Type := {
  items_buffer : list json;    (* [BatchWriter._items_buffer] *)
  sent : list (list json);     (* the [batch_write_item] requests, in order *)
  written : list json;         (* the items the table accepted *)
  refuses : nat -> bool        (* whether the service refuses a request, by number *)
}.

Definition flush_amount : nat := 25.

Definition _flush (s : table_store) : option exn * table_store :=
  let items_to_send := take flush_amount (items_buffer s) in
  let refused := refuses s (length (sent s)) in
  (if refused then Some (ClientError "batch_write_item") else None,
   {| items_buffer := drop flush_amount (items_buffer s);
      sent := sent s ++ [items_to_send];
      written := if refused then written s else written s ++ items_to_send;
      refuses := refuses s |}).

Definition _flush_if_needed (s : table_store) : option exn * table_store :=
  if (flush_amount <=? length (items_buffer s))%nat then _flush s else (None, s).

Definition table_put_item (item : json) (s : table_store) : option exn * table_store :=
  _flush_if_needed
    {| items_buffer := items_buffer s ++ [item]; sent := sent s;
       written := written s; refuses := refuses s |}.

(** [while self._items_buffer: self._flush()]; a flush takes at least one
    item, so the length of the buffer is fuel enough. *)
Fixpoint flush_loop (fuel : nat) (s : table_store) : option exn * table_store :=
  match fuel, items_buffer s with
  | O, _ | _, [] => (None, s)
  | S fuel', _ :: _ =>
      match _flush s with
      | (None, s') => flush_loop fuel' s'
      | (Some e, s') => (Some e, s')
      end
  end.

Definition table_exit (s : table_store) : option exn * table_store :=
  flush_loop (length (items_buffer s)) s.

Definition table_batch_writer (s : table_store) : table_store :=
  {| items_buffer := []; sent := sent s; written := written s;
     refuses := refuses s |}.

#[global] Instance table_BatchWriter : BatchWriter table_store := {
  batch_writer := table_batch_writer;
  put_item := table_put_item;
  batch_exit := table_exit;
  requests := sent;
  rows := written
}.

(** A table that has seen nothing yet. *)
Definition empty_table (refuses : nat -> bool) : table_store :=
  {| items_buffer := []; sent := []; written := []; refuses := refuses |}.

Definition reliable : nat -> bool := fun _ => false.

(** ** A sample environment

    One template file [item.json], identifiers numbered by draw, a clock
    that starts at 1700000000.25 s and advances 0.4 s per reading. *)

Fixpoint join (sep : string) (parts : list string) : string :=
  match parts with
  | [] => EmptyString
  | [p] => p
  | p :: ps => p +:+ sep +:+ join sep ps
  end.

(** [repr] of a decoded item, for items whose strings need no escape. *)
Fixpoint sample_repr (v : json) : string :=
  match v with
  | JNull => "None"
  | JBool true => "True"
  | JBool false => "False"
  | JInt z => str_of_int z
  | JFloat lexeme => lexeme
  | JStr s => "'" +:+ s +:+ "'"
  | JList items => "[" +:+ join ", " (map sample_repr items) +:+ "]"
  | JDict entries =>
      "{" +:+ join ", " (map (fun e => "'" +:+ fst e +:+ "': " +:+ sample_repr (snd e))
                           entries) +:+ "}"
  end.

Definition sample_env (template : string) : env :=
  {| read_text := fun path =>
       if String.eqb path "item.json" then Ok template
       else Raise (OSError "No such file or directory");
     uuid4 := fun k => "00000000-0000-4000-8000-" +:+ str_of_int (100000000000 + Z.of_nat k);
     utcnow := fun k => 1700000000250000 + 400000 * Z.of_nat k;
     format_item := sample_repr |}.

Definition sample_template : string :=
  dq "{'id': '$UUID', 'ttl': $NOW, 'build': ${BUILD}, 'foo': '$FOO'}".

Definition sample_argv (n : string) (commit_text : option string) : command_line :=
  {| opt_file := Some "item.json"; opt_table := Some "things";
     opt_number := Some n; opt_commit := commit_text |}.

(** ** What a run is expected to do, turn by turn

    Turn [k + 1] of the loop makes the draw number [k] of identifiers and of
    clock readings. The definitions below name what it then computes; the
    theorems relate them to [main]. *)

Section Turns.
Variable E : env.

(** The seconds the helper gives turn [k + 1] (with a zero offset). *)
Definition now_at (k : nat) : Z := int_of_float (timestamp (utcnow E k)).

(** The mapping turn [k + 1] substitutes. *)
Definition vars_at (k : nat) : gmap string py_value :=
  template_vars (uuid4 E k) (now_at k) (Z.of_nat (S k)).

(** The item turn [k + 1] decodes. *)
Definition item_at (template : string) (k : nat) : result json :=
  rbind (substitute (vars_at k) template) json_loads.

Definition turn_renders (template : string) (k : nat) : bool :=
  in_datetime_range (utcnow E k) && is_ok (item_at template k).

(** The first [n] turns all render an item. *)
Definition renders (template : string) (n : nat) : bool :=
  forallb (turn_renders template) (seq 0 n).

(** The items the turns of [ks] decode. *)
Definition items_at (template : string) (ks : list nat) : list json :=
  omap (fun k => match item_at template k with
                 | Ok item => Some item
                 | Raise _ => None
                 end) ks.

Definition header (args : Namespace) : string :=
  msg_prefix args +:+ "Batch creating " +:+ number args
  +:+ " items using template " +:+ file args
  +:+ " into table " +:+ table args +:+ "...".

Definition done_line (args : Namespace) : string := msg_prefix args +:+ "Done.".

Definition progress (args : Namespace) (i : Z) : list string :=
  if i mod 1000 =? 0
  then [msg_prefix args +:+ "Batch putting item " +:+ str_of_int i]
  else [].

Definition item_line (args : Namespace) (item : json) : string :=
  msg_prefix args +:+ "Templated item: " +:+ format_item E item.

(** The lines turn [k + 1] prints when it renders. *)
Definition turn_lines (args : Namespace) (template : string) (k : nat)
  : list string :=
  progress args (Z.of_nat (S k))
  ++ (if commit args then []
      else match item_at template k with
           | Ok item => [item_line args item]
           | Raise _ => []
           end).
End Turns.

Section Sessions.
Context {B : Type} `{BatchWriter B}.

(** [put_item] on each item in turn, up to the first that raises. *)
Fixpoint put_all (items : list json) (b : B) : option exn * B :=
  match items with
  | [] => (None, b)
  | item :: rest =>
      match put_item item b with
      | (None, b') => put_all rest b'
      | (Some e, b') => (Some e, b')
      end
  end.

(** A whole session on the store: entered, given the items, closed. *)
Definition session (items : list json) (b : B) : option exn * B :=
  let '(r, b1) := put_all items (batch_writer b) in
  let '(x, b2) := batch_exit b1 in
  (match x with Some e => Some e | None => r end, b2).

(** The world a turn renders in: progress printed, both draws made. *)
Definition drawn (args : Namespace) (i : Z) (w : world B) : world B :=
  {| stdout := stdout w ++ progress args i; store := store w;
     uuid_calls := S (uuid_calls w); clock_reads := S (clock_reads w);
     log := log w |}.

(** The store a log leaves, from the store it started on. *)
Definition last_store (l : list (call * B)) (b : B) : B :=
  default b (last (map snd l)).

(** What one turn can do, from store [b] to store [b']: its result, the
    log it leaves and the lines it prints. Nothing is logged when the clock
    fails, the substitution alone when rendering fails or the run is dry,
    the substitution and the put otherwise. *)
Inductive turn_log (E : env) (args : Namespace) (template : string)
    (k : nat) (b : B)
  : result unit -> B -> list (call * B) -> list string -> Prop :=
  | turn_no_clock :
      in_datetime_range (utcnow E k) = false ->
      turn_log E args template k b
        (Raise (ValueError "year is out of range")) b []
        (progress args (Z.of_nat (S k)))
  | turn_no_item e :
      in_datetime_range (utcnow E k) = true ->
      item_at E template k = Raise e ->
      turn_log E args template k b (Raise e) b
        [(Substitute (vars_at E k), b)]
        (progress args (Z.of_nat (S k)))
  | turn_dry item :
      commit args = false ->
      in_datetime_range (utcnow E k) = true ->
      item_at E template k = Ok item ->
      turn_log E args template k b (Ok tt) b
        [(Substitute (vars_at E k), b)]
        (progress args (Z.of_nat (S k)) ++ [item_line E args item])
  | turn_put item b' :
      commit args = true ->
      in_datetime_range (utcnow E k) = true ->
      item_at E template k = Ok item ->
      put_item item b = (None, b') ->
      turn_log E args template k b (Ok tt) b'
        [(Substitute (vars_at E k), b); (Put item None, b')]
        (progress args (Z.of_nat (S k)))
  | turn_put_raised item e b' :
      commit args = true ->
      in_datetime_range (utcnow E k) = true ->
      item_at E template k = Ok item ->
      put_item item b = (Some e, b') ->
      turn_log E args template k b (Raise e) b'
        [(Substitute (vars_at E k), b); (Put item (Some e), b')]
        (progress args (Z.of_nat (S k))).

(** The [n] turns from turn [k + 1] on: they go on while they succeed and
    stop with the first exception. *)
Inductive turns_log (E : env) (args : Namespace) (template : string)
  : nat -> nat -> B -> result unit -> B -> list (call * B) -> list string -> Prop :=
  | turns_end k b : turns_log E args template k 0 b (Ok tt) b [] []
  | turns_next k n b b1 b2 l1 l2 o1 o2 r :
      turn_log E args template k b (Ok tt) b1 l1 o1 ->
      turns_log E args template (S k) n b1 r b2 l2 o2 ->
      turns_log E args template k (S n) b r b2 (l1 ++ l2) (o1 ++ o2)
  | turns_stop k n b b1 l1 o1 e :
      turn_log E args template k b (Raise e) b1 l1 o1 ->
      turns_log E args template k (S n) b (Raise e) b1 l1 o1.

(** The body of the [with] statement: [int(args.number)], then the turns. *)
Inductive body_log (E : env) (args : Namespace) (template : string) (b : B)
  : result unit -> B -> list (call * B) -> list string -> Prop :=
  | body_bad_number e :
      py_int (number args) = Raise e ->
      body_log E args template b (Raise e) b [] []
  | body_turns n r b' l o :
      py_int (number args) = Ok n ->
      turns_log E args template 0 (Z.to_nat n) b r b' l o ->
      body_log E args template b r b' l o.
End Sessions.

(** The command line [-f item.json -t things -n 3 --commit=false]. *)
Definition commit_false_argv : command_line := sample_argv "3" (Some "false").

(** A service that refuses its twentieth request: the one the 500th put
    triggers. *)
Definition refuses_twentieth : nat -> bool := fun k => (k =? 19)%nat.

(** A template with an ill-formed [$] before a name [main] does not give. *)
Definition unknown_template : string := dq "{'note': '$ 5', 'id': '$UNKNOWN'}".

(** Whether a decoded value is a JSON object. *)
Definition is_object (v : json) : bool :=
  match v with JDict _ => true | _ => false end.

(** A line of a turn: the mode prefix followed by anything but the closing
    text. *)
Definition turn_line (args : Namespace) (line : string) : Prop :=
  exists rest, line = msg_prefix args +:+ rest /\ rest <> "Done.".

(** A template whose [UUID] follows a backslash: the text decodes only for
    identifiers that start with [b] or [f]. *)
Definition escaped_template : string := dq "{'id': '\$UUID'}".

(** The sample environment with identifiers that start with [b] for two
    draws and with [c] from the third on. *)
Definition flaky_env : env :=
  {| read_text := read_text (sample_env escaped_template);
     uuid4 := fun k => (if (k <? 2)%nat then "b" else "c")
                       +:+ "0000000-0000-4000-8000-000000000000";
     utcnow := utcnow (sample_env escaped_template);
     format_item := sample_repr |}.

(** * Properties *)

(** ** Sample evaluations of the library models *)

Example substitute_sample :
  substitute (template_vars "u-1" 1700000000 7)
    (dq "{'id': '$UUID', 'ttl': $NOW, 'n': ${BUILD}, 'f': '$FOO$$'}")
  = Ok (dq "{'id': 'u-1', 'ttl': 1700000000, 'n': 7, 'f': 'BAR$'}").
Proof. vm_compute. reflexivity. Qed.

Example py_int_samples :
  py_int "2500" = Ok 2500 /\ py_int " -3 " = Ok (-3) /\ py_int "1_000" = Ok 1000
  /\ py_int "007" = Ok 7 /\ py_int "-0" = Ok 0
  /\ is_ok (py_int "1__0") = false /\ is_ok (py_int "0x10") = false
  /\ is_ok (py_int "- 5") = false /\ is_ok (py_int "ten") = false
  /\ is_ok (py_int "1_") = false /\ is_ok (py_int EmptyString) = false.
Proof. vm_compute. repeat split. Qed.

(** [int] of digits and blanks beyond ASCII: ARABIC-INDIC DIGIT THREE
    (bytes D9 A3) between two EM SPACEs (bytes E2 80 83), FULLWIDTH DIGIT ONE
    and TWO, and a SUPERSCRIPT TWO, which is no decimal digit. *)
Example py_int_unicode_samples :
  py_int (string_of_list_ascii (map ascii_of_nat
            [226; 128; 131; 217; 163; 226; 128; 131]%nat)) = Ok 3
  /\ py_int (string_of_list_ascii (map ascii_of_nat
               [239; 188; 145; 239; 188; 146]%nat)) = Ok 12
  /\ is_ok (py_int (string_of_list_ascii (map ascii_of_nat [194; 178]%nat)))
     = false.
Proof. vm_compute. repeat split. Qed.

Example json_loads_samples :
  json_loads (dq "{'a': [1, -2, true, null], 'b': 'xA', 'a': 3}")
    = Ok (JDict [("a", JInt 3); ("b", JStr "xA")])
  /\ json_loads " 17 " = Ok (JInt 17)
  /\ json_loads "1.5e3" = Ok (JFloat "1.5e3")
  /\ is_ok (json_loads "[1,]") = false
  /\ is_ok (json_loads "01") = false
  /\ is_ok (json_loads "{'a': 1}") = false.
Proof. vm_compute. repeat split. Qed.

(** ** The command line *)

Lemma py_bool_true_iff (s : string) : py_bool s = true <-> s <> EmptyString.
Proof. destruct s; simpl; split; congruence. Qed.

Lemma exit_status_raise {A} (e : exn) : exit_status (@Raise A e) <> 0.
Proof. destruct e; simpl; lia. Qed.

Lemma exit_status_ok {A} (r : result A) : exit_status r = 0 <-> is_ok r = true.
Proof.
  destruct r as [a|e]; simpl; [tauto|].
  split; [|discriminate]. intros Hz. now apply (exit_status_raise (A:=A)) in Hz.
Qed.

(** ** The timestamp helper *)

Lemma round_half_even_bounds (n d : Z) :
  n / d <= round_half_even n d <= n / d + 1.
Proof.
  unfold round_half_even.
  destruct (2 * (n mod d) <? d); [lia|].
  destruct (d <? 2 * (n mod d)); [lia|].
  destruct (Z.even (n / d)); lia.
Qed.

(** Scaled by at least [2 ^ 19], a count of microseconds rounds to a value
    whose integer part is its number of whole seconds: a millionth of the
    scale is more than half a unit, so rounding cannot reach the next
    second. *)
Lemma rounded_seconds (a k : Z) :
  0 <= a -> 19 <= k ->
  round_half_even (a * 2 ^ k) us_per_second / 2 ^ k = a / us_per_second.
Proof.
  intros Ha Hk. unfold us_per_second.
  assert (HP : 2 ^ 19 <= 2 ^ k) by (apply Z.pow_le_mono_r; lia).
  change (2 ^ 19) with 524288 in HP.
  set (P := 2 ^ k) in *.
  pose proof (Z.div_mod a 1000000 ltac:(lia)) as Hdm.
  pose proof (Z.mod_pos_bound a 1000000 ltac:(lia)) as Hr.
  set (q := a / 1000000) in *. set (r := a mod 1000000) in *.
  assert (HrP : 0 <= r * P) by (apply Z.mul_nonneg_nonneg; lia).
  assert (HrP' : r * P <= 999999 * P) by (apply Z.mul_le_mono_nonneg_r; lia).
  assert (HaP : a * P = 1000000 * (q * P) + r * P) by (rewrite Hdm; ring).
  pose proof (Z.div_mod (a * P) 1000000 ltac:(lia)) as Hdm'.
  pose proof (Z.mod_pos_bound (a * P) 1000000 ltac:(lia)) as Hr'.
  assert (Hround : q * P <= round_half_even (a * P) 1000000 < q * P + P).
  { unfold round_half_even.
    set (q' := a * P / 1000000) in *. set (r' := (a * P) mod 1000000) in *.
    set (qP := q * P) in *. set (rP := r * P) in *.
    destruct (2 * r' <? 1000000) eqn:H1; [lia|].
    apply Z.ltb_ge in H1.
    destruct (1000000 <? 2 * r'); [lia|].
    destruct (Z.even q'); lia. }
  symmetry. apply Z.div_unique with (r := round_half_even (a * P) 1000000 - q * P).
  - left. lia.
  - lia.
Qed.

(** Whatever the scale, the rounded value is within the second of the
    count or exactly at the next one. *)
Lemma rounded_seconds_near (a k : Z) :
  0 <= a -> 0 <= k ->
  let m := round_half_even (a * 2 ^ k) us_per_second in
  m / 2 ^ k = a / us_per_second \/ m / 2 ^ k = a / us_per_second + 1.
Proof.
  intros Ha Hk. cbv zeta. unfold us_per_second.
  assert (HP : 0 < 2 ^ k) by (apply Z.pow_pos_nonneg; lia).
  set (P := 2 ^ k) in *.
  pose proof (Z.div_mod a 1000000 ltac:(lia)) as Hdm.
  pose proof (Z.mod_pos_bound a 1000000 ltac:(lia)) as Hr.
  set (q := a / 1000000) in *. set (r := a mod 1000000) in *.
  assert (HrP : 0 <= r * P) by (apply Z.mul_nonneg_nonneg; lia).
  assert (HrP' : r * P <= 999999 * P) by (apply Z.mul_le_mono_nonneg_r; lia).
  assert (HaP : a * P = 1000000 * (q * P) + r * P) by (rewrite Hdm; ring).
  pose proof (Z.div_mod (a * P) 1000000 ltac:(lia)) as Hdm'.
  pose proof (Z.mod_pos_bound (a * P) 1000000 ltac:(lia)) as Hr'.
  assert (Hround : q * P <= round_half_even (a * P) 1000000 <= q * P + P).
  { pose proof (round_half_even_bounds (a * P) 1000000) as [Hlo Hhi].
    set (q' := a * P / 1000000) in *. set (r' := (a * P) mod 1000000) in *.
    set (qP := q * P) in *. set (rP := r * P) in *. lia. }
  destruct (Z.eq_dec (round_half_even (a * P) 1000000) (q * P + P)) as [Heq|Hne].
  - right. rewrite Heq. replace (q * P + P) with ((q + 1) * P) by ring.
    apply Z.div_mul. lia.
  - left. symmetry.
    apply Z.div_unique with (r := round_half_even (a * P) 1000000 - q * P); lia.
Qed.

Lemma ilog2_ratio_seconds (a : Z) :
  0 < a < 2 ^ 34 * us_per_second -> ilog2_ratio a us_per_second <= 33.
Proof.
  intros [Hpos Hlt]. unfold ilog2_ratio, us_per_second in *.
  change (Z.log2 1000000) with 19.
  assert (Hlog : Z.log2 a < 54).
  { apply Z.log2_lt_pow2; [lia|]. change (2 ^ 34) with 17179869184 in Hlt.
    change (2 ^ 54) with 18014398509481984. lia. }
  destruct (Z.eq_dec (Z.log2 a - 19) 34) as [He|He].
  - rewrite He. change (0 <=? 34) with true. cbv iota.
    destruct (a <? 1000000 * 2 ^ 34) eqn:Hb; [lia|].
    apply Z.ltb_ge in Hb. lia.
  - destruct (if 0 <=? Z.log2 a - 19 then _ else _); lia.
Qed.

(** Anywhere in the range of [datetime] the quotient keeps at least
    fourteen binary places. *)
Lemma ilog2_ratio_datetime (a : Z) :
  0 < a < 2 ^ 58 -> ilog2_ratio a us_per_second <= 38.
Proof.
  intros [Hpos Hlt]. unfold ilog2_ratio, us_per_second in *.
  change (Z.log2 1000000) with 19.
  assert (Hlog : Z.log2 a < 58) by (apply Z.log2_lt_pow2; lia).
  destruct (if 0 <=? Z.log2 a - 19 then _ else _); lia.
Qed.

(** [int] of the float [sign * m * 2 ^ (- k)]. *)
Lemma int_of_scaled (t m k : Z) :
  t <> 0 -> 0 <= m -> 0 < k ->
  int_of_float {| mant := Z.sgn t * m; expo := - k |}
  = Z.sgn t * (m / 2 ^ k).
Proof.
  intros Ht Hm Hk. unfold int_of_float. cbn [mant expo].
  assert (Hneg : (0 <=? - k) = false) by (apply Z.leb_gt; lia).
  rewrite Hneg, Z.opp_involutive.
  assert (HP : 0 < 2 ^ k) by (apply Z.pow_pos_nonneg; lia).
  destruct (Z.lt_total t 0) as [Hlt|[Heq|Hgt]]; [|lia|].
  - rewrite (Z.sgn_neg t Hlt).
    replace (-1 * m) with (- m) by lia.
    rewrite Z.quot_opp_l by lia. rewrite Z.quot_div_nonneg by lia. lia.
  - rewrite (Z.sgn_pos t Hgt), !Z.mul_1_l. apply Z.quot_div_nonneg; lia.
Qed.

Lemma quot_seconds (t : Z) :
  Z.quot t us_per_second = Z.sgn t * (Z.abs t / us_per_second).
Proof.
  unfold us_per_second.
  destruct (Z.lt_total t 0) as [Hlt|[Heq|Hgt]].
  - rewrite (Z.sgn_neg t Hlt), (Z.abs_neq t) by lia.
    rewrite <- Z.quot_div_nonneg by lia. rewrite Z.quot_opp_l by lia. lia.
  - subst t. reflexivity.
  - rewrite (Z.sgn_pos t Hgt), (Z.abs_eq t) by lia.
    rewrite Z.quot_div_nonneg by lia. lia.
Qed.

(** Within 2^34 seconds of the epoch, [int(dt.timestamp())] is the number of
    whole seconds of [dt], truncated toward zero. *)
Lemma int_of_timestamp (t : Z) :
  Z.abs t < 2 ^ 34 * us_per_second ->
  int_of_float (timestamp t) = Z.quot t us_per_second.
Proof.
  intros Ht. rewrite quot_seconds. unfold timestamp, true_divide.
  destruct (t =? 0) eqn:Hz.
  - apply Z.eqb_eq in Hz. subst t. reflexivity.
  - apply Z.eqb_neq in Hz.
    pose proof (ilog2_ratio_seconds (Z.abs t) ltac:(lia)) as He.
    set (e := ilog2_ratio (Z.abs t) us_per_second) in *.
    assert (Hs : (e - 52 <=? 0) = true) by (apply Z.leb_le; lia).
    rewrite Hs.
    replace (e - 52) with (- (52 - e)) by lia. rewrite Z.opp_involutive.
    rewrite int_of_scaled; [|assumption| |lia].
    + now rewrite rounded_seconds by lia.
    + pose proof (round_half_even_bounds (Z.abs t * 2 ^ (52 - e)) us_per_second) as [Hlo _].
      assert (0 <= Z.abs t * 2 ^ (52 - e) / us_per_second); [|lia].
      apply Z.div_pos; [|unfold us_per_second; lia].
      apply Z.mul_nonneg_nonneg; [lia|]. apply Z.pow_nonneg. lia.
Qed.

(** Anywhere in the range of [datetime], [int(dt.timestamp())] is the
    number of whole seconds of [dt] or, when the rounding of the float
    reaches the next second, one more in magnitude. *)
Lemma int_of_timestamp_near (t : Z) :
  in_datetime_range t = true ->
  int_of_float (timestamp t) = Z.quot t us_per_second
  \/ int_of_float (timestamp t) = Z.quot t us_per_second + Z.sgn t.
Proof.
  intros Ht. rewrite quot_seconds. unfold timestamp, true_divide.
  destruct (t =? 0) eqn:Hz.
  - apply Z.eqb_eq in Hz. subst t. left. reflexivity.
  - apply Z.eqb_neq in Hz.
    assert (Habs : 0 < Z.abs t < 2 ^ 58).
    { unfold in_datetime_range, datetime_min, datetime_max, us_per_second in Ht.
      apply andb_true_iff in Ht as [Hlo Hhi]. apply Z.leb_le in Hlo, Hhi.
      change (2 ^ 58) with 288230376151711744. lia. }
    pose proof (ilog2_ratio_datetime (Z.abs t) Habs) as He.
    set (e := ilog2_ratio (Z.abs t) us_per_second) in *.
    assert (Hs : (e - 52 <=? 0) = true) by (apply Z.leb_le; lia).
    rewrite Hs.
    replace (e - 52) with (- (52 - e)) by lia. rewrite Z.opp_involutive.
    rewrite int_of_scaled; [|assumption| |lia].
    + destruct (rounded_seconds_near (Z.abs t) (52 - e) ltac:(lia) ltac:(lia))
        as [Hr|Hr]; cbv zeta in Hr; rewrite Hr; [left; reflexivity|right; ring].
    + pose proof (round_half_even_bounds (Z.abs t * 2 ^ (52 - e)) us_per_second) as [Hlo _].
      assert (0 <= Z.abs t * 2 ^ (52 - e) / us_per_second); [|lia].
      apply Z.div_pos; [|unfold us_per_second; lia].
      apply Z.mul_nonneg_nonneg; [lia|]. apply Z.pow_nonneg. lia.
Qed.

(** ** One turn of the loop *)

Section RunFacts.
Context {B : Type} `{BatchWriter B}.
Variable E : env.

Lemma loop_body_eq (args : Namespace) (template : string) (i : Z) (w : world B) :
  loop_body E args template i w =
  if in_datetime_range (utcnow E (clock_reads w)) then
    let m := template_vars (uuid4 E (uuid_calls w)) (now_at E (clock_reads w)) i in
    let w2 := logged (Substitute m) (store w) (drawn args i w) in
    match rbind (substitute m template) json_loads with
    | Ok item =>
        if commit args then batch_put_item item w2
        else print (item_line E args item) w2
    | Raise e => (Raise e, w2)
    end
  else (Raise (ValueError "year is out of range"), drawn args i w).
Proof.
  assert (Hrest : forall w1 : world B,
    clock_reads w1 = clock_reads w -> uuid_calls w1 = uuid_calls w ->
    store w1 = store w -> log w1 = log w ->
    stdout w1 = stdout w ++ progress args i ->
    bind (uuid_uuid4 E) (fun u =>
      let! now := _get_future_timestamp_seconds E 0 in
      let! text := template_substitute (template_vars u now i) template in
      let! item := lift (json_loads text) in
      if commit args then batch_put_item item
      else print (msg_prefix args +:+ "Templated item: " +:+ format_item E item)) w1
    = if in_datetime_range (utcnow E (clock_reads w)) then
        let m := template_vars (uuid4 E (uuid_calls w)) (now_at E (clock_reads w)) i in
        let w2 := logged (Substitute m) (store w) (drawn args i w) in
        match rbind (substitute m template) json_loads with
        | Ok item =>
            if commit args then batch_put_item item w2
            else print (item_line E args item) w2
        | Raise e => (Raise e, w2)
        end
      else (Raise (ValueError "year is out of range"), drawn args i w)).
  { intros w1 Hc Hu Hs Hl Ho.
    unfold bind, uuid_uuid4, _get_future_timestamp_seconds, bind, datetime_now,
      drawn, now_at, item_line.
    cbn [stdout store uuid_calls clock_reads log].
    rewrite Hc, Hu, Hs, Hl, Ho.
    destruct (in_datetime_range (utcnow E (clock_reads w))) eqn:Hr; [|reflexivity].
    unfold lift at 1. change (timedelta_minutes 0) with (@Ok Z 0).
    unfold lift at 1, datetime_add. cbv iota.
    rewrite Z.add_0_r, Hr. unfold ret, template_substitute, lift, logged.
    cbn [stdout store uuid_calls clock_reads log].
    destruct (substitute _ template) as [text|e]; [|reflexivity].
    cbn [rbind]. destruct (json_loads text) as [item|e]; [|reflexivity].
    destruct (commit args); reflexivity. }
  unfold loop_body. unfold bind at 1.
  unfold progress in *. destruct (i mod 1000 =? 0).
  - unfold print at 1. apply Hrest; reflexivity.
  - unfold ret at 1. apply Hrest; try reflexivity. now rewrite app_nil_r.
Qed.

(** Whatever a turn does is one of the five cases of [turn_log]. *)
Lemma turn_sound (args : Namespace) (template : string) (k : nat) (w : world B) :
  uuid_calls w = k -> clock_reads w = k ->
  let r := fst (loop_body E args template (Z.of_nat (S k)) w) in
  let w' := snd (loop_body E args template (Z.of_nat (S k)) w) in
  exists l o, log w' = log w ++ l /\ stdout w' = stdout w ++ o
    /\ turn_log E args template k (store w) r (store w') l o
    /\ (r = Ok tt -> uuid_calls w' = S k /\ clock_reads w' = S k).
Proof.
  intros Hu Hc. cbv zeta. rewrite loop_body_eq, Hu, Hc.
  destruct (in_datetime_range (utcnow E k)) eqn:Hr.
  - cbv zeta. fold (now_at E k). fold (vars_at E k). fold (item_at E template k).
    destruct (item_at E template k) as [item|e] eqn:Hi.
    + destruct (commit args) eqn:Hcm.
      * unfold batch_put_item. cbn [store logged].
        destruct (put_item item (store w)) as [[e|] b'] eqn:Hp;
          cbn [fst snd store log logged stdout drawn].
        -- do 2 eexists. split; [rewrite <- app_assoc; reflexivity|].
           split; [reflexivity|]. split.
           ++ now apply turn_put_raised.
           ++ discriminate.
        -- do 2 eexists. split; [rewrite <- app_assoc; reflexivity|].
           split; [reflexivity|]. split.
           ++ now apply turn_put.
           ++ intros _. cbn. lia.
      * cbn. do 2 eexists. split; [reflexivity|].
        split; [rewrite <- app_assoc; reflexivity|]. split.
        -- now apply turn_dry.
        -- intros _. lia.
    + cbn. do 2 eexists. split; [reflexivity|]. split; [reflexivity|]. split.
      * now apply turn_no_item.
      * discriminate.
  - cbn. exists [], (progress args (Z.of_nat (S k))).
    split; [now rewrite app_nil_r|]. split; [reflexivity|]. split.
    + now apply turn_no_clock.
    + discriminate.
Qed.

(** ** The loop *)

(** [range(1, n + 1)] lists the turns [1 .. n]. *)
Lemma range_turns (n : Z) :
  range 1 (n + 1) = map (fun k => Z.of_nat (S k)) (seq 0 (Z.to_nat n)).
Proof.
  unfold range. replace (n + 1 - 1) with n by lia.
  apply map_ext. intros k. lia.
Qed.

Lemma range_empty (n : Z) : n <= 0 -> range 1 (n + 1) = [].
Proof.
  intros Hn. rewrite range_turns.
  replace (Z.to_nat n) with 0%nat by lia. reflexivity.
Qed.

Lemma for_each_cons (i : Z) (rest : list Z) (body : Z -> M B unit) (w : world B) :
  for_each (i :: rest) body w =
  match body i w with
  | (Ok _, w1) => for_each rest body w1
  | (Raise e, w1) => (Raise e, w1)
  end.
Proof. reflexivity. Qed.

(** Whatever the loop does is a run of [turns_log]. *)
Lemma for_each_turns (args : Namespace) (template : string) (n : nat) :
  forall (k : nat) (w : world B),
  uuid_calls w = k -> clock_reads w = k ->
  let run := for_each (map (fun j => Z.of_nat (S j)) (seq k n))
               (loop_body E args template) w in
  exists l o, log (snd run) = log w ++ l /\ stdout (snd run) = stdout w ++ o
    /\ turns_log E args template k n (store w) (fst run) (store (snd run)) l o.
Proof.
  induction n as [|n IH]; intros k w Hu Hc; cbv zeta.
  - cbn. exists [], []. rewrite !app_nil_r. repeat split. constructor.
  - cbn [seq map]. rewrite for_each_cons.
    destruct (turn_sound args template k w Hu Hc) as (l1 & o1 & Hl1 & Ho1 & Ht & Hcount).
    destruct (loop_body E args template (Z.of_nat (S k)) w) as [[[]|e] w1];
      cbn [fst snd] in *.
    + destruct (Hcount eq_refl) as [Hu1 Hc1].
      destruct (IH (S k) w1 Hu1 Hc1) as (l2 & o2 & Hl2 & Ho2 & Hts). cbv zeta in *.
      exists (l1 ++ l2), (o1 ++ o2). split; [|split].
      * rewrite Hl2, Hl1. now rewrite app_assoc.
      * rewrite Ho2, Ho1. now rewrite app_assoc.
      * eapply turns_next; eassumption.
    + exists l1, o1. split; [assumption|]. split; [assumption|]. now apply turns_stop.
Qed.

(** ** The whole run *)

(** Every run of [main]: the header is printed; if the template is read,
    the session is entered, the body runs, the session is closed on the
    store the body left, and [Done.] is printed when nothing was raised. *)
Lemma main_run (args : Namespace) (s : B) :
  let r := fst (main E args (initial s)) in
  let w' := snd (main E args (initial s)) in
  match read_text E (file args) with
  | Raise e =>
      r = Raise e /\ log w' = [] /\ store w' = s /\ stdout w' = [header args]
  | Ok template =>
      exists rb b2 mid out,
        body_log E args template (batch_writer s) rb b2 mid out
        /\ log w' = (Enter, batch_writer s) :: mid
                     ++ [(Exit (fst (batch_exit b2)), store w')]
        /\ store w' = snd (batch_exit b2)
        /\ r = match fst (batch_exit b2) with Some e => Raise e | None => rb end
        /\ stdout w' = header args :: out
                        ++ (if is_ok r then [done_line args] else [])
  end.
Proof.
  cbv zeta. destruct (main E args (initial s)) as [r w'] eqn:Hrun. cbn [fst snd].
  unfold main, bind in Hrun. unfold print at 1 in Hrun.
  cbn [initial stdout store uuid_calls clock_reads log app] in Hrun.
  fold (header args) in Hrun. unfold lift at 1 in Hrun.
  destruct (read_text E (file args)) as [template|e].
  2:{ injection Hrun as <- <-. cbn. auto. }
  unfold with_batch_writer at 1 in Hrun. cbn [store] in Hrun.
  unfold lift at 1 in Hrun.
  set (w1 := logged Enter (batch_writer s) _) in Hrun.
  destruct (py_int (number args)) as [n|e] eqn:Hn.
  - rewrite range_turns in Hrun.
    destruct (for_each_turns args template (Z.to_nat n) 0%nat w1 eq_refl eq_refl)
      as (l & o & Hl & Ho & Hts). cbv zeta in *.
    destruct (for_each _ _ w1) as [rb w2]. cbn [fst snd] in *.
    destruct (batch_exit (store w2)) as [x b3] eqn:Hx.
    exists rb, (store w2), l, o. rewrite Hx. cbn [fst snd].
    split; [now apply body_turns with (n := n)|].
    destruct x as [e|]; [|destruct rb as [[]|e]]; injection Hrun as <- <-;
      cbn; rewrite Hl, Ho; cbn; repeat split; now rewrite app_nil_r.
  - destruct (batch_exit (store w1)) as [x b3] eqn:Hx.
    exists (Raise e), (batch_writer s), [], []. cbn [store w1 logged] in Hx. rewrite Hx.
    cbn [fst snd]. split; [now apply body_bad_number|].
    destruct x as [e'|]; injection Hrun as <- <-; cbn; repeat split.
Qed.
End RunFacts.

(** ** What the turns leave in the log *)

Section TurnsFacts.
Context {B : Type} `{BatchWriter B}.
Variables (E : env) (args : Namespace) (template : string).

Lemma puts_app (l1 l2 : list (call * B)) : puts (l1 ++ l2) = puts l1 ++ puts l2.
Proof. apply omap_app. Qed.

Lemma substitutions_app (l1 l2 : list (call * B)) :
  substitutions (l1 ++ l2) = substitutions l1 ++ substitutions l2.
Proof. apply omap_app. Qed.

Lemma last_store_app (l1 l2 : list (call * B)) (b : B) :
  last_store (l1 ++ l2) b = last_store l2 (last_store l1 b).
Proof.
  unfold last_store. rewrite map_app.
  destruct (map snd l2) as [|x xs] using rev_ind.
  - now rewrite app_nil_r.
  - rewrite app_assoc, !last_snoc. reflexivity.
Qed.

Lemma turn_ok_substitutions k b b1 l o :
  turn_log E args template k b (Ok tt) b1 l o ->
  substitutions l = [vars_at E k].
Proof. inversion 1; reflexivity. Qed.

Lemma turn_last_store k b r b1 l o :
  turn_log E args template k b r b1 l o -> last_store l b = b1.
Proof. inversion 1; reflexivity. Qed.

Lemma turn_in_session k b r b1 l o :
  turn_log E args template k b r b1 l o ->
  forallb (fun e => in_session (fst e)) l = true.
Proof. inversion 1; reflexivity. Qed.

(** The mappings substituted are those of consecutive turns, one per turn
    when the loop completes. *)
Lemma turns_substitutions k n b r b' l o :
  turns_log E args template k n b r b' l o ->
  exists m, (m <= n)%nat /\ substitutions l = map (vars_at E) (seq k m)
    /\ (r = Ok tt -> m = n).
Proof.
  induction 1 as [k b|k n b b1 b2 l1 l2 o1 o2 r Ht Hts IH|k n b b1 l1 o1 e Ht].
  - exists 0%nat. repeat split. lia.
  - destruct IH as (m & Hm & Hsub & Hok).
    exists (S m). split; [lia|]. split.
    + rewrite substitutions_app, (turn_ok_substitutions _ _ _ _ _ Ht), Hsub.
      reflexivity.
    + intros Hr. f_equal. auto.
  - inversion Ht; subst.
    + exists 0%nat. repeat split; [lia|discriminate].
    + exists 1%nat. repeat split; [lia|discriminate].
    + exists 1%nat. repeat split; [lia|discriminate].
Qed.

Lemma turns_last_store k n b r b' l o :
  turns_log E args template k n b r b' l o -> last_store l b = b'.
Proof.
  induction 1 as [k b|k n b b1 b2 l1 l2 o1 o2 r Ht Hts IH|k n b b1 l1 o1 e Ht].
  - reflexivity.
  - rewrite last_store_app, (turn_last_store _ _ _ _ _ _ Ht). exact IH.
  - eapply turn_last_store; eassumption.
Qed.

Lemma turns_in_session k n b r b' l o :
  turns_log E args template k n b r b' l o ->
  forallb (fun e => in_session (fst e)) l = true.
Proof.
  induction 1 as [k b|k n b b1 b2 l1 l2 o1 o2 r Ht Hts IH|k n b b1 l1 o1 e Ht].
  - reflexivity.
  - rewrite forallb_app, IH, (turn_in_session _ _ _ _ _ _ Ht). reflexivity.
  - eapply turn_in_session; eassumption.
Qed.

(** A dry run puts nothing and leaves the store as it was. *)
Lemma turns_dry k n b r b' l o :
  commit args = false ->
  turns_log E args template k n b r b' l o -> puts l = [] /\ b' = b.
Proof.
  intros Hc.
  induction 1 as [k b|k n b b1 b2 l1 l2 o1 o2 r Ht Hts IH|k n b b1 l1 o1 e Ht].
  - auto.
  - destruct IH as [Hp ->]. rewrite puts_app, Hp.
    inversion Ht; subst; try congruence. auto.
  - inversion Ht; subst; try congruence; auto.
Qed.

(** A put that raised is the last call of the loop: the loop ends with
    its exception, and as many items were substituted as were put. *)
Lemma turns_put_raised k n b r b' l o i item e :
  turns_log E args template k n b r b' l o ->
  puts l !! i = Some (item, Some e) ->
  r = Raise e /\ length (puts l) = S i /\ length (substitutions l) = S i.
Proof.
  intros Hts. revert i.
  induction Hts as [k b|k n b b1 b2 l1 l2 o1 o2 r Ht Hts IH|k n b b1 l1 o1 e' Ht];
    intros i Hi.
  - discriminate.
  - rewrite puts_app, substitutions_app in *.
    inversion Ht; subst; cbn in *.
    + match goal with Hc : commit args = false |- _ =>
        destruct (turns_dry _ _ _ _ _ _ _ Hc Hts) as [Hp _] end.
      rewrite Hp in Hi. discriminate.
    + destruct i as [|i]; [discriminate|]. cbn in Hi.
      destruct (IH i Hi) as (-> & Hp & Hs). auto.
  - inversion Ht; subst; cbn in *; try discriminate.
    destruct i as [|i]; [|discriminate]. cbn in Hi.
    injection Hi as <- <-. auto.
Qed.

Lemma items_at_cons k ks item :
  item_at E template k = Ok item ->
  items_at E template (k :: ks) = item :: items_at E template ks.
Proof. intros Hi. unfold items_at. cbn. now rewrite Hi. Qed.

Lemma turn_renders_item k :
  turn_renders E template k = true ->
  in_datetime_range (utcnow E k) = true /\ exists item, item_at E template k = Ok item.
Proof.
  unfold turn_renders. intros [Hr Hi]%andb_true_iff. split; [assumption|].
  destruct (item_at E template k) as [item|e]; [eauto|discriminate].
Qed.

Lemma renders_spec n :
  renders E template n = true <->
  forall j, (j < n)%nat -> turn_renders E template j = true.
Proof.
  unfold renders. rewrite forallb_forall. split.
  - intros Hall j Hj. apply Hall, in_seq. lia.
  - intros Hall j [_ Hj]%in_seq. apply Hall. lia.
Qed.

(** When every turn renders and the store takes every item, the loop
    completes; its lines, substitutions and puts are those of the turns. *)
Lemma turns_complete k n b r b' l o :
  turns_log E args template k n b r b' l o ->
  (forall j, (k <= j < k + n)%nat -> turn_renders E template j = true) ->
  (commit args = true -> fst (put_all (items_at E template (seq k n)) b) = None) ->
  r = Ok tt
  /\ o = flat_map (turn_lines E args template) (seq k n)
  /\ substitutions l = map (vars_at E) (seq k n)
  /\ length (items_at E template (seq k n)) = n
  /\ (commit args = true ->
      puts l = map (fun item => (item, None)) (items_at E template (seq k n))
      /\ b' = snd (put_all (items_at E template (seq k n)) b))
  /\ (commit args = false -> puts l = [] /\ b' = b).
Proof.
  induction 1 as [k b|k n b b1 b2 l1 l2 o1 o2 r Ht Hts IH|k n b b1 l1 o1 e Ht];
    intros Hvalid Hstore.
  - cbn. repeat split; auto.
  - destruct (turn_renders_item k) as [Hclock [item0 Hitem]]; [apply Hvalid; lia|].
    cbn [seq flat_map map]. rewrite (items_at_cons _ _ _ Hitem) in *.
    rewrite substitutions_app, puts_app.
    unfold turn_lines at 1. rewrite Hitem.
    inversion Ht; subst.
    + (* a dry turn *)
      destruct IH as (-> & -> & -> & Hlen & _ & Hdry);
        [intros j Hj; apply Hvalid; lia|congruence|].
      match goal with Hc : commit args = false |- _ => rewrite Hc end.
      replace item with item0 by congruence.
      destruct (Hdry ltac:(assumption)) as [-> ->].
      cbn. rewrite Hlen. repeat split; congruence.
    + (* a turn that puts *)
      match goal with Hc : commit args = true |- _ => rename Hc into Hcm end.
      specialize (Hstore Hcm). rewrite Hcm.
      replace item with item0 in * by congruence.
      match goal with Hp : put_item item0 b = _ |- _ => rename Hp into Hput end.
      cbn [seq] in Hstore. rewrite (items_at_cons _ _ _ Hitem) in Hstore.
      cbn [put_all] in Hstore |- *. rewrite Hput in Hstore |- *.
      destruct IH as (-> & -> & -> & Hlen & Hcommit & _);
        [intros j Hj; apply Hvalid; lia|auto|].
      destruct (Hcommit Hcm) as [-> ->].
      cbn. rewrite Hlen, app_nil_r. repeat split; congruence.
  - exfalso.
    destruct (turn_renders_item k) as [Hclock [item0 Hitem]]; [apply Hvalid; lia|].
    inversion Ht; subst; try congruence.
    match goal with Hc : commit args = true |- _ => specialize (Hstore Hc) end.
    cbn [seq] in Hstore. rewrite (items_at_cons _ _ _ Hitem) in Hstore.
    replace item with item0 in * by congruence.
    cbn [put_all] in Hstore.
    match goal with Hp : put_item item0 b = _ |- _ => rewrite Hp in Hstore end.
    discriminate.
Qed.

(** When the first turn cannot render, the loop ends there: one
    substitution logged, nothing printed, nothing put. *)
Lemma turns_first_fails n b r b' l o e :
  turns_log E args template 0 (S n) b r b' l o ->
  in_datetime_range (utcnow E 0) = true ->
  item_at E template 0 = Raise e ->
  r = Raise e /\ b' = b /\ l = [(Substitute (vars_at E 0), b)] /\ o = [].
Proof.
  intros Hts Hclock Hitem.
  inversion Hts as [|? ? ? ? ? ? ? ? ? ? Ht|? ? ? ? ? ? ? Ht]; subst;
    inversion Ht; subst; try congruence.
  replace e0 with e by congruence. auto.
Qed.
End TurnsFacts.

(** The store never loses a row along the turns. *)
Section RowsFacts.
Context {B : Type} `{BatchWriterLaws B}.
Variables (E : env) (args : Namespace) (template : string).

Lemma put_rows item (b b1 : B) x :
  put_item item b = (x, b1) -> rows b `prefix_of` rows b1.
Proof. intros Hp. pose proof (put_keeps_rows item b) as Hk. now rewrite Hp in Hk. Qed.

Lemma turn_rows k (b : B) r b1 l o :
  turn_log E args template k b r b1 l o ->
  rows b `prefix_of` rows b1
  /\ Forall (fun e => rows b `prefix_of` rows (snd e)
                      /\ rows (snd e) `prefix_of` rows b1) l.
Proof.
  inversion 1; subst; (split; [|repeat constructor]); cbn;
    try reflexivity; eauto using put_rows.
Qed.

Lemma turns_rows k n (b : B) r b' l o :
  turns_log E args template k n b r b' l o ->
  rows b `prefix_of` rows b'
  /\ Forall (fun e => rows b `prefix_of` rows (snd e)
                      /\ rows (snd e) `prefix_of` rows b') l.
Proof.
  induction 1 as [k b|k n b b1 b2 l1 l2 o1 o2 r Ht Hts IH|k n b b1 l1 o1 e Ht].
  - split; [reflexivity|constructor].
  - destruct (turn_rows _ _ _ _ _ _ Ht) as [H1 Hl1]. destruct IH as [H2 Hl2].
    split; [etrans; eassumption|].
    apply Forall_app. split.
    + eapply Forall_impl; [exact Hl1|]. cbn. intros e [Ha Hb].
      split; [assumption|etrans; eassumption].
    + eapply Forall_impl; [exact Hl2|]. cbn. intros e [Ha Hb].
      split; [etrans; eassumption|assumption].
  - eapply turn_rows; eassumption.
Qed.
End RowsFacts.

(** ** Substitution *)

Lemma template_vars_supported (uuid : string) (now build : Z) (name : string) :
  is_Some (template_vars uuid now build !! name) <-> In name supported.
Proof.
  unfold template_vars, supported. rewrite !lookup_insert, lookup_empty.
  repeat case_decide; subst; cbn; split; intros Hx;
    try (eexists; reflexivity); try tauto.
  destruct Hx as [? Hx]. discriminate.
Qed.

Lemma template_vars_build (uuid : string) (now build : Z) :
  template_vars uuid now build !! "BUILD" = Some (PyInt build).
Proof. unfold template_vars. now rewrite !lookup_insert. Qed.

Lemma template_vars_now (uuid : string) (now build : Z) :
  template_vars uuid now build !! "NOW" = Some (PyInt now).
Proof. unfold template_vars. now rewrite !lookup_insert. Qed.

Lemma template_vars_text (uuid : string) (now build : Z) (name : string) v :
  template_vars uuid now build !! name = Some v ->
  py_str v = placeholder_text uuid now build name.
Proof.
  unfold template_vars, placeholder_text.
  rewrite !lookup_insert, lookup_empty.
  repeat case_decide; subst; cbn; intros Hv; try discriminate;
    injection Hv as <-; reflexivity.
Qed.

Lemma convert_all_rendered (uuid : string) (now build : Z) (ps : list piece) :
  forall text,
  convert_all (template_vars uuid now build) ps = Ok text ->
  text = fold_right (fun p rest => piece_text uuid now build p +:+ rest)
           EmptyString ps.
Proof.
  induction ps as [|p ps IH]; intros text; cbn [convert_all fold_right].
  - intros Hok. now injection Hok as <-.
  - destruct (convert (template_vars uuid now build) p) as [s|e] eqn:Hp;
      [|discriminate].
    cbn [rbind].
    destruct (convert_all (template_vars uuid now build) ps) as [t|e] eqn:Hps;
      [|discriminate].
    cbn [rbind]. intros Hok. injection Hok as <-.
    rewrite <- (IH t eq_refl). f_equal.
    destruct p; cbn in Hp; try (injection Hp as <-; reflexivity); try discriminate.
    + destruct (template_vars uuid now build !! name) as [v|] eqn:Hv; [|discriminate].
      injection Hp as <-. cbn. now apply template_vars_text.
    + destruct (template_vars uuid now build !! name) as [v|] eqn:Hv; [|discriminate].
      injection Hp as <-. cbn. now apply template_vars_text.
Qed.

(** What [substitute] returns for the mapping of [main] is the text of the
    item. *)
Lemma substitute_rendered (uuid : string) (now build : Z) (template text : string) :
  substitute (template_vars uuid now build) template = Ok text ->
  text = rendered_text uuid now build template.
Proof. apply convert_all_rendered. Qed.

(** [str] of an [int] tells the [int]: different numbers have different
    numerals. *)
Lemma to_int_nonnil (z : Z) :
  Z.to_int z <> Decimal.Pos Decimal.Nil /\ Z.to_int z <> Decimal.Neg Decimal.Nil.
Proof.
  destruct z as [|p|p]; cbn; split; try discriminate; intros Heq;
    injection Heq as Heq; now apply DecimalPos.Unsigned.to_uint_nonnil in Heq.
Qed.

Lemma str_of_int_inj (i j : Z) : str_of_int i = str_of_int j -> i = j.
Proof.
  unfold str_of_int. intros Heq.
  apply (f_equal DecimalString.NilZero.int_of_string) in Heq.
  destruct (to_int_nonnil i) as [Hi1 Hi2]. destruct (to_int_nonnil j) as [Hj1 Hj2].
  rewrite !DecimalString.NilZero.isi in Heq by assumption. injection Heq as Heq.
  now apply DecimalZ.to_int_inj.
Qed.

(** A template that refers to a name the mapping lacks cannot be
    substituted: the first match that fails raises, a [KeyError] for a missing
    name or a [ValueError] for an ill-formed [$]. *)
Lemma convert_all_missing (mapping : gmap string py_value) (ps : list piece) :
  (exists name, In name (placeholder_names ps) /\ mapping !! name = None) ->
  exists e, convert_all mapping ps = Raise e
    /\ ((exists key, e = KeyError key /\ mapping !! key = None
                     /\ In key (placeholder_names ps))
        \/ (e = ValueError "Invalid placeholder in string" /\ In Invalid ps)).
Proof.
  induction ps as [|p ps IH]; intros (name & Hin & Hnone); [destruct Hin|].
  assert (Hrest : In name (placeholder_names ps) ->
    exists e, convert_all mapping ps = Raise e
      /\ ((exists key, e = KeyError key /\ mapping !! key = None
                       /\ In key (placeholder_names (p :: ps)))
          \/ (e = ValueError "Invalid placeholder in string" /\ In Invalid (p :: ps)))).
  { intros Hin'. destruct IH as (e & He & Hkind); [eauto|].
    exists e. split; [assumption|].
    destruct Hkind as [(key & -> & Hk & Hkin)|[-> Hinv]].
    - left. exists key. repeat split; [assumption|].
      unfold placeholder_names in *. cbn. destruct p; cbn; auto.
    - right. split; [reflexivity|now right]. }
  destruct p as [c| |n|n|]; cbn [convert_all convert rbind].
  - destruct (Hrest Hin) as (e & -> & Hkind). eauto.
  - destruct (Hrest Hin) as (e & -> & Hkind). eauto.
  - destruct (mapping !! n) as [v|] eqn:Hn.
    + destruct Hin as [->|Hin]; [congruence|].
      destruct (Hrest Hin) as (e & -> & Hkind). eauto.
    + eexists. split; [reflexivity|]. left. exists n. cbn. auto.
  - destruct (mapping !! n) as [v|] eqn:Hn.
    + destruct Hin as [->|Hin]; [congruence|].
      destruct (Hrest Hin) as (e & -> & Hkind). eauto.
    + eexists. split; [reflexivity|]. left. exists n. cbn. auto.
  - eexists. split; [reflexivity|]. right. cbn. auto.
Qed.

(** ** Runs that complete *)

Section Complete.
Context {B : Type} `{BatchWriter B}.
Variable E : env.

Lemma puts_session (b b' : B) (mid : list (call * B)) x :
  puts ((Enter, b) :: mid ++ [(Exit x, b')]) = puts mid.
Proof. unfold puts. cbn. rewrite omap_app. cbn. apply app_nil_r. Qed.

Lemma substitutions_session (b b' : B) (mid : list (call * B)) x :
  substitutions ((Enter, b) :: mid ++ [(Exit x, b')]) = substitutions mid.
Proof. unfold substitutions. cbn. rewrite omap_app. cbn. apply app_nil_r. Qed.

Lemma session_accepts (items : list json) (s : B) :
  fst (session items s) = None ->
  fst (put_all items (batch_writer s)) = None
  /\ fst (batch_exit (snd (put_all items (batch_writer s)))) = None
  /\ snd (session items s) = snd (batch_exit (snd (put_all items (batch_writer s)))).
Proof.
  unfold session. destruct (put_all items (batch_writer s)) as [r b1].
  cbn [fst snd]. destruct (batch_exit b1) as [[e|] b2]; cbn; [discriminate|auto].
Qed.

(** When the template is read, the count parses, every turn renders and
    the store raises nothing, [main] returns: it printed the header, the
    lines of the turns and [Done.], and drove the store through one
    session with the rendered items (none in a dry run). *)
Lemma main_complete (args : Namespace) (s : B) (template : string) (n : Z) :
  read_text E (file args) = Ok template ->
  py_int (number args) = Ok n ->
  renders E template (Z.to_nat n) = true ->
  let items := items_at E template (seq 0 (Z.to_nat n)) in
  fst (session (if commit args then items else []) s) = None ->
  let w' := snd (main E args (initial s)) in
  fst (main E args (initial s)) = Ok tt
  /\ stdout w' = header args
       :: flat_map (turn_lines E args template) (seq 0 (Z.to_nat n))
       ++ [done_line args]
  /\ substitutions (log w') = map (vars_at E) (seq 0 (Z.to_nat n))
  /\ length items = Z.to_nat n
  /\ puts (log w') = (if commit args then map (fun item => (item, None)) items else [])
  /\ store w' = snd (session (if commit args then items else []) s).
Proof.
  intros Hread Hn Hrenders items Hstore. cbv zeta.
  pose proof (main_run E args s) as Hrun. cbv zeta in Hrun. rewrite Hread in Hrun.
  destruct Hrun as (rb & b2 & mid & out & Hbody & Hlog & Hst & Hr & Hout).
  destruct Hbody as [e Hbad|n' r b' l o Hn' Hts]; [congruence|].
  replace n' with n in * by congruence.
  apply session_accepts in Hstore as (Hputs & Hexit & Hsession).
  destruct (turns_complete E args template 0 (Z.to_nat n) _ _ _ _ _ Hts)
    as (-> & -> & Hsub & Hlen & Hcommit & Hdry).
  - intros j Hj. apply (proj1 (renders_spec E template _) Hrenders). lia.
  - intros Hc. rewrite Hc in Hputs. exact Hputs.
  - fold items in Hlen, Hcommit.
    assert (Hb : b' = snd (put_all (if commit args then items else []) (batch_writer s))
                 /\ puts l = if commit args then map (fun item => (item, None)) items else []).
    { destruct (commit args).
      - destruct (Hcommit eq_refl) as [-> ->]. auto.
      - destruct (Hdry eq_refl) as [-> ->]. auto. }
    destruct Hb as [-> Hp].
    rewrite Hexit in Hr, Hlog. rewrite Hr in Hout. cbn [is_ok] in Hout.
    rewrite Hlog, puts_session, substitutions_session.
    repeat split; try assumption. congruence.
Qed.
End Complete.

(** ** The table store keeps the promises of the interface *)

Lemma flush_rows (s : table_store) : written s `prefix_of` written (snd (_flush s)).
Proof.
  unfold _flush. cbn. destruct (refuses s (length (sent s))); [reflexivity|].
  now apply prefix_app_r.
Qed.

Lemma flush_loop_rows (fuel : nat) :
  forall s, written s `prefix_of` written (snd (flush_loop fuel s)).
Proof.
  induction fuel as [|fuel IH]; intros s; cbn [flush_loop]; [reflexivity|].
  destruct (items_buffer s) eqn:Hb; [reflexivity|].
  pose proof (flush_rows s) as Hf.
  destruct (_flush s) as [[e|] s']; cbn [fst snd] in *; [exact Hf|].
  etrans; [exact Hf|apply IH].
Qed.

#[global] Instance table_BatchWriterLaws : BatchWriterLaws table_store.
Proof.
  split.
  - reflexivity.
  - reflexivity.
  - reflexivity.
  - intros item b. change (written b `prefix_of` written (snd (table_put_item item b))).
    unfold table_put_item, _flush_if_needed. cbn [items_buffer].
    destruct (flush_amount <=? length (items_buffer b ++ [item]))%nat; [|reflexivity].
    apply (flush_rows {| items_buffer := items_buffer b ++ [item]; sent := sent b;
                         written := written b; refuses := refuses b |}).
  - intros b. apply flush_loop_rows.
Qed.

(** Closing the session without an error empties the buffer: every item
    still buffered has become a row. *)
Lemma flush_loop_empties (fuel : nat) :
  forall s, (length (items_buffer s) <= fuel)%nat ->
  fst (flush_loop fuel s) = None ->
  items_buffer (snd (flush_loop fuel s)) = []
  /\ written (snd (flush_loop fuel s)) = written s ++ items_buffer s.
Proof.
  induction fuel as [|fuel IH]; intros s Hlen Hok.
  - cbn [flush_loop fst snd] in *.
    destruct (items_buffer s) eqn:Hb; [|cbn in Hlen; lia].
    now rewrite app_nil_r.
  - cbn [flush_loop] in *. destruct (items_buffer s) as [|x l] eqn:Hb.
    + cbn [fst snd]. rewrite Hb, app_nil_r. auto.
    + unfold _flush in *. rewrite Hb in *.
      destruct (refuses s (length (sent s))); [discriminate|].
      set (s' := {| items_buffer := drop flush_amount (x :: l);
                    sent := sent s ++ [take flush_amount (x :: l)];
                    written := written s ++ take flush_amount (x :: l);
                    refuses := refuses s |}) in *.
      destruct (IH s') as [He Hw]; [|exact Hok|].
      * cbn [items_buffer s']. rewrite length_drop. cbn in *. unfold flush_amount. lia.
      * split; [exact He|]. rewrite Hw. cbn [written items_buffer s'].
        now rewrite <- app_assoc, take_drop.
Qed.

Lemma table_exit_flushes (s : table_store) :
  fst (table_exit s) = None ->
  items_buffer (snd (table_exit s)) = []
  /\ written (snd (table_exit s)) = written s ++ items_buffer s.
Proof. apply flush_loop_empties. lia. Qed.

(** In this model of the table the items a refused request carried are not
    rows: when the request of the 500th put is refused, 475 of the 500 items
    put are rows. *)
Example refused_request_leaves_no_row :
  let run := main (sample_env sample_template)
    {| file := "item.json"; table := "things"; number := "600"; commit := true |}
    (initial (empty_table refuses_twentieth)) in
  fst run = Raise (ClientError "batch_write_item")
  /\ length (puts (log (snd run))) = 500%nat
  /\ length (rows (store (snd run))) = 475%nat
  /\ items_buffer (store (snd run)) = [].
Proof. vm_compute. repeat split. Qed.

(** ** More on what the turns leave *)

Section PutFacts.
Context {B : Type} `{BatchWriter B}.
Variables (E : env) (args : Namespace) (template : string).

(** The puts of the turns are the items of consecutive turns, and at most
    one substitution is not followed by its put. *)
Lemma turns_puts_items k n (b : B) r b' l o :
  turns_log E args template k n b r b' l o ->
  (forall j item x, puts l !! j = Some (item, x) ->
     item_at E template (k + j) = Ok item)
  /\ (length (puts l) <= length (substitutions l))%nat
  /\ (commit args = true -> (length (substitutions l) <= S (length (puts l)))%nat)
  /\ (commit args = true -> r = Ok tt -> length (puts l) = length (substitutions l)).
Proof.
  induction 1 as [k b|k n b b1 b2 l1 l2 o1 o2 r Ht Hts IH|k n b b1 l1 o1 e Ht].
  - cbn. repeat split; auto. intros j item x Hj. discriminate.
  - destruct IH as (Hitems & Hle & Hge & Heq).
    rewrite puts_app, substitutions_app, !length_app.
    inversion Ht; subst; cbn [puts substitutions omap fst length app Nat.add].
    + (* a dry turn *)
      match goal with Hc : commit args = false |- _ =>
        destruct (turns_dry E args template _ _ _ _ _ _ _ Hc Hts) as [Hp _] end.
      rewrite Hp. cbn. split; [intros j item0 x Hj; discriminate|].
      repeat split; try lia; congruence.
    + split; [|split; [|split]].
      * intros [|j] item0 x Hj; cbn in Hj.
        -- injection Hj as <- <-. now rewrite Nat.add_0_r.
        -- replace (k + S j)%nat with (S k + j)%nat by lia. eapply Hitems; eassumption.
      * cbn. lia.
      * intros Hc. specialize (Hge Hc). cbn. lia.
      * intros Hc Hr. specialize (Heq Hc Hr). cbn. lia.
  - inversion Ht; subst; cbn; (split; [|split; [|split]]); try lia; try discriminate.
    intros [|j] item0 x Hj; cbn in Hj; [|discriminate].
    injection Hj as <- <-. now rewrite Nat.add_0_r.
Qed.
End PutFacts.

Section ReturnFacts.
Context {B : Type} `{BatchWriter B}.
Variables (E : env) (args : Namespace) (template : string).

(** Turns that all succeed have all rendered, and in commit mode the store
    has taken every item. *)
Lemma turns_ok_rendered k n (b : B) r b' l o :
  turns_log E args template k n b r b' l o ->
  r = Ok tt ->
  (forall i, (k <= i < k + n)%nat -> turn_renders E template i = true)
  /\ (commit args = true ->
      put_all (items_at E template (seq k n)) b = (None, b')).
Proof.
  induction 1 as [k b|k n b b1 b2 l1 l2 o1 o2 r Ht Hts IH|k n b b1 l1 o1 e Ht];
    intros Hr; [split; [lia|reflexivity]| |discriminate].
  destruct (IH Hr) as [Hvalid Hstore].
  assert (Hk : in_datetime_range (utcnow E k) = true
               /\ exists item, item_at E template k = Ok item
                  /\ (commit args = true -> put_item item b = (None, b1))
                  /\ (commit args = false -> b1 = b)).
  { inversion Ht; subst; split; try assumption; eexists; split; try eassumption;
      split; congruence. }
  destruct Hk as (Hclock & item & Hitem & Hput & Hdry). split.
  - intros i Hi. destruct (Nat.eq_dec i k) as [->|Hne].
    + unfold turn_renders. now rewrite Hclock, Hitem.
    + apply Hvalid. lia.
  - intros Hc. cbn [seq]. rewrite (items_at_cons E template _ _ _ Hitem).
    cbn [put_all]. rewrite (Hput Hc). auto.
Qed.
End ReturnFacts.

Section ClockFacts.
Context {B : Type} `{BatchWriter B}.
Variables (E : env) (args : Namespace) (template : string).

(** A turn substitutes only after it has read a clock that [datetime] can
    hold. *)
Lemma turns_substitutions_clock k n (b : B) r b' l o :
  turns_log E args template k n b r b' l o ->
  forall j, (j < length (substitutions l))%nat ->
  in_datetime_range (utcnow E (k + j)) = true.
Proof.
  induction 1 as [k b|k n b b1 b2 l1 l2 o1 o2 r Ht Hts IH|k n b b1 l1 o1 e Ht];
    intros j Hj.
  - cbn in Hj. lia.
  - rewrite substitutions_app, (turn_ok_substitutions _ _ _ _ _ _ _ _ Ht) in Hj.
    cbn in Hj. destruct j as [|j].
    + rewrite Nat.add_0_r. inversion Ht; assumption.
    + replace (k + S j)%nat with (S k + j)%nat by lia. apply IH. lia.
  - inversion Ht; subst; cbn in Hj; try lia;
      (destruct j as [|j]; [|lia]); rewrite Nat.add_0_r; assumption.
Qed.
End ClockFacts.

Section RenderedFacts.
Context {B : Type} `{BatchWriter B}.
Variables (E : env) (args : Namespace) (template : string).

(** The item of a turn is decoded from the text of the item. *)
Lemma item_at_rendered (k : nat) (item : json) :
  item_at E template k = Ok item ->
  json_loads (rendered_text (uuid4 E k) (now_at E k) (Z.of_nat (S k)) template)
  = Ok item.
Proof.
  unfold item_at, vars_at.
  destruct (substitute _ template) as [text|e] eqn:Hs; [|discriminate].
  apply substitute_rendered in Hs. subst text. auto.
Qed.

(** In a dry run a turn that renders prints the line of its item. *)
Lemma dry_turn_line (k : nat) (item : json) :
  commit args = false ->
  item_at E template k = Ok item ->
  In (item_line E args item) (turn_lines E args template k).
Proof.
  intros Hc Hi. unfold turn_lines. rewrite Hc, Hi.
  apply in_or_app. right. now left.
Qed.
End RenderedFacts.

Section PutFails.
Context {B : Type} `{BatchWriter B}.
Variables (E : env) (args : Namespace) (template : string).

(** When a put raised, the store had taken every earlier item of the loop
    without raising, and then raised on this one. *)
Lemma turns_put_fails k n (b : B) r b' l o i item e :
  turns_log E args template k n b r b' l o ->
  puts l !! i = Some (item, Some e) ->
  exists items b1,
    puts l = map (fun it => (it, None)) items ++ [(item, Some e)]
    /\ length items = i
    /\ put_all items b = (None, b1)
    /\ put_item item b1 = (Some e, b').
Proof.
  intros Hts. revert i.
  induction Hts as [k b|k n b b1 b2 l1 l2 o1 o2 r Ht Hts IH|k n b b1 l1 o1 e' Ht];
    intros i Hi.
  - discriminate.
  - rewrite puts_app in *.
    inversion Ht; subst; cbn in *.
    + match goal with Hc : commit args = false |- _ =>
        destruct (turns_dry E args template _ _ _ _ _ _ _ Hc Hts) as [Hp _] end.
      rewrite Hp in Hi. discriminate.
    + destruct i as [|i]; [discriminate|]. cbn in Hi.
      destruct (IH i Hi) as (items & b3 & Hp & Hlen & Hall & Hput).
      exists (item0 :: items), b3. cbn [map app length put_all].
      match goal with Hq : put_item item0 b = _ |- _ => rewrite Hq end.
      rewrite Hp. auto.
  - inversion Ht; subst; cbn in *; try discriminate.
    destruct i as [|i]; [|discriminate]. injection Hi as -> ->.
    exists [], b. cbn. auto.
Qed.
End PutFails.

(** ** The table and the items of a session *)

(** While no request is refused, every item put is a row or waits in the
    buffer, in the order of the puts, and fewer than [flush_amount] wait. *)
Lemma table_put_all (items : list json) :
  forall b b1 : table_store,
  (length (items_buffer b) < flush_amount)%nat ->
  put_all items b = (None, b1) ->
  exists kept,
    written b1 = written b ++ kept
    /\ kept ++ items_buffer b1 = items_buffer b ++ items
    /\ (length (items_buffer b1) < flush_amount)%nat.
Proof.
  unfold flush_amount.
  induction items as [|item items IH]; intros b b1 Hlen Hall.
  - cbn in Hall. injection Hall as <-. exists []. rewrite !app_nil_r. auto.
  - cbn [put_all] in Hall.
    change (put_item item b) with (table_put_item item b) in Hall.
    unfold table_put_item, _flush_if_needed, flush_amount in Hall.
    cbn [items_buffer] in Hall.
    destruct (25 <=? length (items_buffer b ++ [item]))%nat eqn:Hfull.
    + apply Nat.leb_le in Hfull. rewrite length_app in Hfull. cbn in Hfull.
      unfold _flush, flush_amount in Hall.
      cbn [items_buffer sent written refuses] in Hall.
      destruct (refuses b (length (sent b))); [discriminate|].
      rewrite take_ge, drop_ge in Hall by (rewrite length_app; cbn; lia).
      destruct (fun Hl => IH _ _ Hl Hall) as (kept & Hw & Hk & Hb); [cbn; lia|].
      cbn [written items_buffer] in Hw, Hk.
      exists ((items_buffer b ++ [item]) ++ kept). split; [|split].
      * rewrite Hw. now rewrite <- !app_assoc.
      * rewrite <- !app_assoc in *. cbn in *. now rewrite Hk.
      * assumption.
    + apply Nat.leb_gt in Hfull. rewrite length_app in Hfull. cbn in Hfull.
      destruct (fun Hl => IH _ _ Hl Hall) as (kept & Hw & Hk & Hb);
        [cbn; rewrite length_app; cbn; lia|].
      cbn [written items_buffer] in Hw, Hk.
      exists kept. split; [assumption|]. split; [|assumption].
      rewrite Hk. now rewrite <- app_assoc.
Qed.

(** A put raises only when it fills the buffer and the request is refused:
    the request carried the whole buffer, which is then empty, and no row was
    written. *)
Lemma table_put_refused (item : json) (b b' : table_store) (e : exn) :
  (length (items_buffer b) < flush_amount)%nat ->
  put_item item b = (Some e, b') ->
  S (length (items_buffer b)) = flush_amount
  /\ written b' = written b
  /\ items_buffer b' = []
  /\ sent b' = sent b ++ [items_buffer b ++ [item]].
Proof.
  unfold flush_amount. intros Hlen.
  change (put_item item b) with (table_put_item item b).
  unfold table_put_item, _flush_if_needed, flush_amount. cbn [items_buffer].
  destruct (25 <=? length (items_buffer b ++ [item]))%nat eqn:Hfull;
    [|discriminate].
  apply Nat.leb_le in Hfull. rewrite length_app in Hfull. cbn in Hfull.
  unfold _flush, flush_amount. cbn [items_buffer sent written refuses].
  destruct (refuses b (length (sent b))); [|discriminate].
  rewrite take_ge, drop_ge by (rewrite length_app; cbn; lia).
  intros Heq. injection Heq as _ <-. cbn. repeat split. lia.
Qed.

(** An element whose text is the text of no element of a list is not in
    the list. *)
Lemma absent_by_text {A} (f : A -> string) (x : A) (l : list A) :
  existsb (String.eqb (f x)) (map f l) = false -> ~ In x l.
Proof.
  intros Hf Hin.
  assert (Ht : existsb (String.eqb (f x)) (map f l) = true).
  { apply existsb_exists. exists (f x). split; [now apply in_map|].
    apply String.eqb_refl. }
  congruence.
Qed.

(** ** The claims *)

Lemma script_eq {B} `{BatchWriter B} (E : env) (argv : command_line)
    (args : Namespace) (w : world B) :
  _get_args argv = Ok args -> script E argv w = main E args w.
Proof. intros Ha. unfold script, bind, lift. now rewrite Ha. Qed.

(** C9. The commit flag is [bool] of the text given for [--commit]: every
    non-empty text, [false] included, turns it on, and the run is dry exactly
    when the option is absent or empty. With the flag on, a run whose turns
    render hands every item to the store; with it off, nothing is put and
    the store sees no request. *)
Theorem commit_flag_is_truthiness {B} `{BatchWriterLaws B} (E : env)
    (argv : command_line) (args : Namespace) (s : B) (template : string) (n : Z) :
  _get_args argv = Ok args ->
  read_text E (file args) = Ok template ->
  py_int (number args) = Ok n ->
  renders E template (Z.to_nat n) = true ->
  let items := items_at E template (seq 0 (Z.to_nat n)) in
  let w' := snd (script E argv (initial s)) in
  (forall text, opt_commit argv = Some text -> text <> EmptyString -> commit args = true)
  /\ (commit args = false <->
      opt_commit argv = None \/ opt_commit argv = Some EmptyString)
  /\ (commit args = true -> fst (session items s) = None ->
      msg_prefix args = EmptyString
      /\ puts (log w') = map (fun item => (item, None)) items
      /\ store w' = snd (session items s))
  /\ (commit args = false ->
      msg_prefix args = "[DRY RUN] "
      /\ puts (log w') = []
      /\ requests (store w') = requests s).
Proof.
  intros Hargs Hread Hn Hrenders items w'.
  assert (Hflag : commit args = match opt_commit argv with
                                | Some text => py_bool text
                                | None => false
                                end).
  { unfold _get_args in Hargs.
    destruct (opt_file argv), (opt_table argv), (opt_number argv); try discriminate.
    injection Hargs as <-. reflexivity. }
  subst w'. rewrite (script_eq E argv args _ Hargs).
  split; [|split; [|split]].
  - intros text Ht Hne. rewrite Hflag, Ht. now apply py_bool_true_iff.
  - rewrite Hflag. destruct (opt_commit argv) as [[|c text]|]; cbn; split;
      intros Hx; try reflexivity; try discriminate; auto.
    destruct Hx as [Hx|Hx]; discriminate.
  - intros Hc Hstore.
    destruct (main_complete E args s template n Hread Hn Hrenders) as (_ & _ & _ & _ & Hp & Hs).
    { rewrite Hc. exact Hstore. }
    rewrite Hc in Hp, Hs. unfold msg_prefix. rewrite Hc. auto.
  - intros Hc.
    destruct (main_complete E args s template n Hread Hn Hrenders) as (_ & _ & _ & _ & Hp & Hs).
    { rewrite Hc. unfold session. cbn.
      pose proof (idle_session_ok s) as Hi.
      destruct (batch_exit (batch_writer s)) as [[e|] b2]; [discriminate|reflexivity]. }
    rewrite Hc in Hp, Hs. unfold msg_prefix. rewrite Hc.
    repeat split; [assumption|]. rewrite Hs. unfold session. cbn.
    pose proof (idle_session_silent s) as Hi.
    destruct (batch_exit (batch_writer s)) as [x b2]. exact Hi.
Qed.

Lemma commit_flag_is_truthiness_witness :
  commit {| file := "item.json"; table := "things"; number := "3"; commit := true |} = true
  /\ length (puts (log (snd (script (sample_env sample_template) commit_false_argv
                                (initial (empty_table reliable)))))) = 3%nat.
Proof.
  split; [reflexivity|].
  pose proof (commit_flag_is_truthiness (sample_env sample_template)
    commit_false_argv
    {| file := "item.json"; table := "things"; number := "3"; commit := true |}
    (empty_table reliable) sample_template 3
    eq_refl eq_refl eq_refl ltac:(vm_compute; reflexivity)) as Hw.
  cbv zeta in Hw. destruct Hw as (_ & _ & Hcommit & _).
  destruct (Hcommit eq_refl ltac:(vm_compute; reflexivity)) as (_ & Hp & _).
  rewrite Hp. vm_compute. reflexivity.
Defined.

(** A session that is given nothing raises nothing and sends nothing. *)
Lemma session_idle {B} `{BatchWriterLaws B} (s : B) :
  fst (session [] s) = None /\ requests (snd (session [] s)) = requests s.
Proof.
  unfold session. cbn [put_all].
  pose proof (idle_session_ok s) as Hok. pose proof (idle_session_silent s) as Hsilent.
  destruct (batch_exit (batch_writer s)) as [[e|] b2]; [discriminate|auto].
Qed.

(** C10. When the text given for [--number] reads as an integer that is
    zero or negative, [_get_args] accepts it and the loop has no turn:
    nothing is rendered, printed as an item or put, the store sees no
    request, and the run still prints [Done.] and exits with status 0. *)
Theorem non_positive_count_runs_no_turn {B} `{BatchWriterLaws B} (E : env)
    (argv : command_line) (path name text template : string) (n : Z) (s : B) :
  opt_file argv = Some path ->
  opt_table argv = Some name ->
  opt_number argv = Some text ->
  py_int text = Ok n ->
  n <= 0 ->
  read_text E path = Ok template ->
  let run := script E argv (initial s) in
  exists args,
    _get_args argv = Ok args
    /\ range 1 (n + 1) = []
    /\ fst run = Ok tt
    /\ exit_status (fst run) = 0
    /\ stdout (snd run) = [header args; done_line args]
    /\ substitutions (log (snd run)) = []
    /\ puts (log (snd run)) = []
    /\ requests (store (snd run)) = requests s.
Proof.
  intros Hf Ht Hnum Hn Hle Hread run.
  set (args := {| file := path; table := name; number := text;
                  commit := match opt_commit argv with
                            | Some c => py_bool c
                            | None => false
                            end |}).
  assert (Hargs : _get_args argv = Ok args)
    by (unfold _get_args; now rewrite Hf, Ht, Hnum).
  exists args. subst run. rewrite (script_eq E argv args _ Hargs).
  assert (Hz : Z.to_nat n = 0%nat) by lia.
  assert (Hitems : (if commit args then items_at E template (seq 0 (Z.to_nat n)) else [])
                   = []) by (rewrite Hz; destruct (commit args); reflexivity).
  destruct (session_idle s) as [Hidle Hsilent].
  destruct (main_complete E args s template n Hread Hn) as (Hr & Hout & Hsub & _ & Hp & Hs).
  { rewrite Hz. reflexivity. }
  { rewrite Hitems. exact Hidle. }
  rewrite Hitems in Hs. rewrite Hz in Hout, Hsub, Hp. cbn [seq flat_map map app] in Hout, Hsub.
  split; [assumption|]. split; [now apply range_empty|].
  split; [assumption|]. rewrite Hr. split; [reflexivity|].
  split; [assumption|]. split; [assumption|].
  split; [destruct (commit args); assumption|].
  rewrite Hs. exact Hsilent.
Qed.

Lemma non_positive_count_runs_no_turn_witness :
  stdout (snd (script (sample_env sample_template) (sample_argv "-3" None)
                 (initial (empty_table reliable))))
  = ["[DRY RUN] Batch creating -3 items using template item.json into table things...";
     "[DRY RUN] Done."].
Proof.
  destruct (non_positive_count_runs_no_turn (sample_env sample_template)
    (sample_argv "-3" None) "item.json" "things" "-3" sample_template (-3)
    (empty_table reliable) eq_refl eq_refl eq_refl eq_refl ltac:(lia) eq_refl)
    as (args & Hargs & _ & _ & _ & Hout & _).
  injection Hargs as <-. exact Hout.
Defined.

(** C7. However the loop is left, the session is closed: once the template
    is read the log is [Enter], then only substitutions and puts, then one
    [Exit], which ran on the store the last call of the loop left and gave
    the final store. Nothing of the store is touched when the template cannot
    be read. *)
Theorem session_is_always_closed {B} `{BatchWriter B} (E : env)
    (args : Namespace) (s : B) :
  let w' := snd (main E args (initial s)) in
  match read_text E (file args) with
  | Raise _ => log w' = []
  | Ok _ =>
      exists mid,
        let left := last_store mid (batch_writer s) in
        log w' = (Enter, batch_writer s) :: mid
                 ++ [(Exit (fst (batch_exit left)), snd (batch_exit left))]
        /\ forallb (fun e => in_session (fst e)) mid = true
        /\ store w' = snd (batch_exit left)
  end.
Proof.
  cbv zeta. pose proof (main_run E args s) as Hrun. cbv zeta in Hrun.
  destruct (read_text E (file args)) as [template|e]; [|tauto].
  destruct Hrun as (rb & b2 & mid & out & Hbody & Hlog & Hst & _).
  exists mid.
  assert (Hmid : last_store mid (batch_writer s) = b2
                 /\ forallb (fun e => in_session (fst e)) mid = true).
  { destruct Hbody as [e Hbad|n r b' l o Hn Hts]; [auto|]. split.
    - eapply turns_last_store; eassumption.
    - eapply turns_in_session; eassumption. }
  destruct Hmid as [-> Hin]. rewrite <- Hst. auto.
Qed.

(** C3. The [BUILD] values substituted over a run are 1, 2, 3, ... in
    order, without gap or repeat: the value of the i-th substitution is i.
    There are never more than N of them, and exactly N when the run
    completes. The text the i-th substitution returns is the template with
    the numeral of i in the place of every [$BUILD]; every item put is
    decoded from that text, and so is every item a completed dry run prints.
    Numerals of different numbers differ. *)
Theorem build_values_count_up {B} `{BatchWriter B} (E : env)
    (args : Namespace) (s : B) :
  let run := main E args (initial s) in
  let l := log (snd run) in
  let text_of template k :=
    rendered_text (uuid4 E k) (now_at E k) (Z.of_nat (S k)) template in
  exists m,
    map (fun vars => vars !! "BUILD") (substitutions l)
    = map (fun i => Some (PyInt (Z.of_nat i))) (seq 1 m)
    /\ (forall n, py_int (number args) = Ok n ->
          (m <= Z.to_nat n)%nat /\ (fst run = Ok tt -> m = Z.to_nat n))
    /\ (forall template k vars text,
          read_text E (file args) = Ok template ->
          substitutions l !! k = Some vars ->
          substitute vars template = Ok text ->
          text = text_of template k)
    /\ (forall template j item x,
          read_text E (file args) = Ok template ->
          puts l !! j = Some (item, x) ->
          json_loads (text_of template j) = Ok item)
    /\ (forall template n k,
          read_text E (file args) = Ok template ->
          py_int (number args) = Ok n ->
          commit args = false -> fst run = Ok tt ->
          (k < Z.to_nat n)%nat ->
          exists item,
            json_loads (text_of template k) = Ok item
            /\ In (item_line E args item) (stdout (snd run)))
    /\ (forall i j, str_of_int i = str_of_int j -> i = j).
Proof.
  cbv zeta. pose proof (main_run E args s) as Hrun. cbv zeta in Hrun.
  destruct (read_text E (file args)) as [template|e] eqn:Hread.
  - destruct Hrun as (rb & b2 & mid & out & Hbody & Hlog & _ & Hr & Hout).
    rewrite Hlog, substitutions_session, puts_session.
    destruct Hbody as [e Hbad|n r b' l o Hn Hts].
    + exists 0%nat. split; [reflexivity|]. split; [intros n Hn; congruence|].
      split; [intros ? k ? ? _ Hk; destruct k; discriminate|].
      split; [intros ? j ? ? _ Hj; destruct j; discriminate|].
      split; [intros; congruence|]. apply str_of_int_inj.
    + destruct (turns_substitutions E args template _ _ _ _ _ _ _ Hts)
        as (m & Hm & Hsub & Hok).
      assert (Hdone : fst (main E args (initial s)) = Ok tt -> r = Ok tt).
      { intros Hd. rewrite Hr in Hd.
        destruct (fst (batch_exit b')); [discriminate|assumption]. }
      exists m. split; [|split; [|split; [|split; [|split]]]].
      * rewrite Hsub, <- seq_shift, !map_map. apply map_ext. intros k.
        apply template_vars_build.
      * intros n' Hn'. replace n' with n by congruence. split; [assumption|].
        intros Hd. apply Hok. auto.
      * intros template' k vars text Ht Hk Hs.
        replace template' with template in * by congruence.
        rewrite Hsub in Hk. apply list_lookup_fmap_Some in Hk as (j & -> & Hj).
        apply lookup_seq in Hj as [-> _]. cbn [Nat.add].
        now apply substitute_rendered.
      * intros template' j item x Ht Hj.
        replace template' with template in * by congruence.
        destruct (turns_puts_items E args template _ _ _ _ _ _ _ Hts) as (Hitems & _).
        apply (item_at_rendered E template j item).
        exact (Hitems j item x Hj).
      * intros template' n' k Ht Hn' Hc Hd Hk.
        replace template' with template in * by congruence.
        replace n' with n in * by congruence.
        pose proof (Hdone Hd) as Hrb.
        destruct (turns_ok_rendered E args template _ _ _ _ _ _ _ Hts Hrb)
          as [Hvalid _].
        destruct (turns_complete E args template _ _ _ _ _ _ _ Hts)
          as (_ & -> & _).
        { intros i Hi. apply Hvalid. lia. }
        { intros Hc'. congruence. }
        destruct (turn_renders_item E template k) as (_ & item & Hitem).
        { apply Hvalid. lia. }
        exists item. split; [now apply item_at_rendered|].
        rewrite Hout. right. apply in_or_app. left.
        apply in_flat_map. exists k. split; [apply in_seq; lia|].
        now apply dry_turn_line.
      * apply str_of_int_inj.
  - destruct Hrun as (Hr & Hlog & _). rewrite Hlog, Hr.
    exists 0%nat. split; [reflexivity|].
    split; [intros n Hn; split; [lia|discriminate]|].
    split; [intros; discriminate|]. split; [intros; discriminate|].
    split; [intros; discriminate|]. apply str_of_int_inj.
Qed.

Lemma build_values_count_up_witness :
  map (fun vars => vars !! "BUILD")
    (substitutions (log (snd (main (sample_env sample_template)
      {| file := "item.json"; table := "things"; number := "3"; commit := false |}
      (initial (empty_table reliable))))))
  = [Some (PyInt 1); Some (PyInt 2); Some (PyInt 3)]
  /\ substitute (vars_at (sample_env sample_template) 1) sample_template
     = Ok (dq "{'id': '00000000-0000-4000-8000-100000000001', 'ttl': 1700000000, 'build': 2, 'foo': 'BAR'}").
Proof.
  destruct (build_values_count_up (sample_env sample_template)
    {| file := "item.json"; table := "things"; number := "3"; commit := false |}
    (empty_table reliable)) as (m & Hb & Hn & Htext & _).
  destruct (Hn 3 eq_refl) as [_ Hm]. split.
  - rewrite Hb, (Hm ltac:(vm_compute; reflexivity)). reflexivity.
  - assert (Hk : substitutions (log (snd (main (sample_env sample_template)
        {| file := "item.json"; table := "things"; number := "3"; commit := false |}
        (initial (empty_table reliable))))) !! 1%nat
        = Some (vars_at (sample_env sample_template) 1))
      by (vm_compute; reflexivity).
    destruct (substitute (vars_at (sample_env sample_template) 1) sample_template)
      as [text|e] eqn:Hs; [|vm_compute in Hs; discriminate].
    rewrite (Htext sample_template 1%nat _ text eq_refl Hk Hs).
    vm_compute. reflexivity.
Defined.

Lemma exits_session {B} (b b' : B) (mid : list (call * B)) x :
  exits ((Enter, b) :: mid ++ [(Exit x, b')]) = exits mid ++ [x].
Proof. unfold exits. cbn. now rewrite omap_app. Qed.

Lemma in_session_exits {B} (l : list (call * B)) :
  forallb (fun e => in_session (fst e)) l = true -> exits l = [].
Proof.
  induction l as [|[c b] l IH]; [reflexivity|].
  cbn. intros [Hc Hl]%andb_true_iff.
  unfold exits in *. cbn. destruct c; try discriminate; auto.
Qed.



(** C8. Whenever the current time plus the offset is a time [datetime] can
    hold, the helper returns its whole seconds, truncated, or, when the
    rounding of the float reaches the next second, one more in magnitude;
    within 2^34 seconds of the epoch it is always the truncated value.
    [main] always asks for a zero offset, so the [NOW] of a substitution is
    the whole seconds of the clock reading of its turn, in the same sense. *)
Theorem timestamp_helper_truncates {B} `{BatchWriter B} (E : env)
    (minutes : Z) (w : world B) (args : Namespace) (s : B) :
  (in_datetime_range (utcnow E (clock_reads w)) = true ->
   in_datetime_range
     (utcnow E (clock_reads w) + minutes * 60 * us_per_second) = true ->
   let sum := utcnow E (clock_reads w) + minutes * 60 * us_per_second in
   exists seconds,
     fst (_get_future_timestamp_seconds E minutes w) = Ok seconds
     /\ (seconds = Z.quot sum us_per_second
         \/ seconds = Z.quot sum us_per_second + Z.sgn sum)
     /\ (Z.abs sum < 2 ^ 34 * us_per_second ->
         seconds = Z.quot sum us_per_second))
  /\ (forall k vars,
        substitutions (log (snd (main E args (initial s)))) !! k = Some vars ->
        exists now,
          vars !! "NOW" = Some (PyInt now)
          /\ (now = Z.quot (utcnow E k) us_per_second
              \/ now = Z.quot (utcnow E k) us_per_second + Z.sgn (utcnow E k))
          /\ (Z.abs (utcnow E k) < 2 ^ 34 * us_per_second ->
              now = Z.quot (utcnow E k) us_per_second)).
Proof.
  split.
  - intros Hclock Hin. cbv zeta.
    unfold _get_future_timestamp_seconds, bind, datetime_now. cbn [fst].
    rewrite Hclock. unfold lift at 1.
    assert (Hdelta : timedelta_minutes minutes = Ok (minutes * 60 * us_per_second)).
    { unfold timedelta_minutes.
      unfold in_datetime_range, datetime_min, datetime_max, us_per_second in *.
      apply andb_true_iff in Hclock as [Hlo Hhi].
      apply andb_true_iff in Hin as [Hlo' Hhi'].
      apply Z.leb_le in Hlo, Hhi, Hlo', Hhi'.
      assert (Hd : -999999999 <= minutes * 60 * 1000000 / (86400 * 1000000) <= 999999999).
      { split.
        - apply Z.div_le_lower_bound; lia.
        - apply Z.lt_succ_r. apply Z.div_lt_upper_bound; lia. }
      destruct Hd as [Hd1 Hd2]. apply Z.leb_le in Hd1, Hd2.
      now rewrite Hd1, Hd2. }
    rewrite Hdelta. unfold lift, datetime_add. rewrite Hin. cbn.
    eexists. split; [reflexivity|]. split.
    + now apply int_of_timestamp_near.
    + apply int_of_timestamp.
  - intros k vars Hk.
    pose proof (main_run E args s) as Hrun. cbv zeta in Hrun.
    destruct (read_text E (file args)) as [template|e].
    2:{ destruct Hrun as (_ & Hlog & _). rewrite Hlog in Hk. discriminate. }
    destruct Hrun as (rb & b2 & mid & out & Hbody & Hlog & _).
    rewrite Hlog, substitutions_session in Hk.
    destruct Hbody as [e Hbad|n r b' l o Hn Hts]; [discriminate|].
    pose proof (turns_substitutions_clock E args template _ _ _ _ _ _ _ Hts k
                  (lookup_lt_Some _ _ _ Hk)) as Hclock.
    destruct (turns_substitutions E args template _ _ _ _ _ _ _ Hts) as (m & _ & Hsub & _).
    rewrite Hsub in Hk. apply list_lookup_fmap_Some in Hk as (j & -> & Hj).
    apply lookup_seq in Hj as [-> _]. cbn [Nat.add] in *.
    unfold vars_at. rewrite template_vars_now. unfold now_at.
    eexists. split; [reflexivity|]. split.
    + now apply int_of_timestamp_near.
    + apply int_of_timestamp.
Qed.

Lemma timestamp_helper_truncates_witness :
  fst (_get_future_timestamp_seconds (sample_env sample_template) 90
         (initial (empty_table reliable)))
  = Ok 1700005400.
Proof.
  destruct (timestamp_helper_truncates (sample_env sample_template) 90
    (initial (empty_table reliable))
    {| file := "item.json"; table := "things"; number := "3"; commit := false |}
    (empty_table reliable)) as [Hhelper Hnow].
  destruct (Hhelper eq_refl ltac:(vm_compute; reflexivity))
    as (seconds & Hrun & _ & Hexact).
  rewrite Hrun, (Hexact ltac:(vm_compute; reflexivity)). reflexivity.
Defined.

(** ** More on the lines and the items of the turns *)

Section Lines.
Context (E : env) (args : Namespace) (template : string).

Lemma items_at_rendered (ks : list nat) :
  (forall k, In k ks -> turn_renders E template k = true) ->
  Forall2 (fun k item => exists text,
             substitute (vars_at E k) template = Ok text
             /\ json_loads text = Ok item)
    ks (items_at E template ks)
  /\ (commit args = false ->
      flat_map (turn_lines E args template) ks
      = concat (zip_with (fun k item =>
                  progress args (Z.of_nat (S k)) ++ [item_line E args item])
                ks (items_at E template ks))).
Proof.
  induction ks as [|k ks IH]; intros Hall; [split; [constructor|reflexivity]|].
  destruct (turn_renders_item E template k) as [_ [item Hitem]];
    [apply Hall; now left|].
  destruct IH as [IH1 IH2]; [intros j Hj; apply Hall; now right|].
  rewrite (items_at_cons E template _ _ _ Hitem). split.
  - constructor; [|assumption].
    unfold item_at in Hitem.
    destruct (substitute (vars_at E k) template) as [text|e]; [|discriminate].
    exists text. auto.
  - intros Hc. cbn [flat_map zip_with concat]. rewrite (IH2 Hc).
    unfold turn_lines at 1. now rewrite Hc, Hitem.
Qed.

Lemma turn_lines_commit (k : nat) :
  commit args = true ->
  turn_lines E args template k
  = if Z.of_nat (S k) mod 1000 =? 0
    then ["Batch putting item " +:+ str_of_int (Z.of_nat (S k))]
    else [].
Proof.
  intros Hc. unfold turn_lines, progress, msg_prefix. rewrite Hc. cbn.
  now rewrite app_nil_r.
Qed.
End Lines.

(** C2. In commit mode with 2500 items, every turn rendering and the store
    raising nothing, the output is the announcement of the batch, the two
    progress lines of turns 1000 and 2000 and [Done.]; the 2500 rendered
    items are put once each, in the order of their [BUILD] values 1 to
    2500. *)
Theorem commit_run_of_2500 {B} `{BatchWriter B} (E : env) (args : Namespace)
    (s : B) (template : string) :
  commit args = true ->
  read_text E (file args) = Ok template ->
  py_int (number args) = Ok 2500 ->
  renders E template 2500 = true ->
  let items := items_at E template (seq 0 2500) in
  fst (session items s) = None ->
  let run := main E args (initial s) in
  fst run = Ok tt
  /\ stdout (snd run)
     = [header args; "Batch putting item 1000"; "Batch putting item 2000"; "Done."]
  /\ puts (log (snd run)) = map (fun item => (item, None)) items
  /\ length items = 2500%nat
  /\ Forall2 (fun k item => exists text,
                substitute (vars_at E k) template = Ok text
                /\ json_loads text = Ok item)
       (seq 0 2500) items
  /\ map (fun vars => vars !! "BUILD") (substitutions (log (snd run)))
     = map (fun i => Some (PyInt (Z.of_nat i))) (seq 1 2500)
  /\ store (snd run) = snd (session items s).
Proof.
  intros Hc Hread Hn Hrenders items Hstore run.
  destruct (main_complete E args s template 2500 Hread Hn Hrenders)
    as (Hr & Hout & Hsub & Hlen & Hp & Hs).
  { rewrite Hc. exact Hstore. }
  rewrite Hc in Hp, Hs. change (Z.to_nat 2500) with 2500%nat in *.
  split; [assumption|]. split; [|split; [assumption|split; [assumption|split; [|split]]]].
  - subst run. rewrite Hout.
    rewrite (flat_map_ext _ _ (fun k => turn_lines_commit E args template k Hc)).
    unfold done_line, msg_prefix. rewrite Hc. vm_compute. reflexivity.
  - apply (items_at_rendered E args template).
    intros k Hk%in_seq. apply (proj1 (renders_spec E template _) Hrenders). lia.
  - subst run. rewrite Hsub, <- seq_shift, !map_map. apply map_ext. intros k.
    apply template_vars_build.
  - assumption.
Qed.

Lemma commit_run_of_2500_witness :
  length (puts (log (snd (main (sample_env sample_template)
    {| file := "item.json"; table := "things"; number := "2500"; commit := true |}
    (initial (empty_table reliable)))))) = 2500%nat.
Proof.
  destruct (commit_run_of_2500 (sample_env sample_template)
    {| file := "item.json"; table := "things"; number := "2500"; commit := true |}
    (empty_table reliable) sample_template eq_refl eq_refl eq_refl
    ltac:(vm_compute; reflexivity) ltac:(vm_compute; reflexivity))
    as (_ & _ & Hp & Hlen & _).
  rewrite Hp, length_map. exact Hlen.
Defined.

(** The claim of C2 read literally fails: the first line printed in
    commit mode is the announcement of the batch, neither a progress line nor
    [Done.]. *)
Lemma commit_output_starts_with_header :
  let run := script (sample_env sample_template) (sample_argv "2500" (Some "true"))
               (initial (empty_table reliable)) in
  stdout (snd run)
  = ["Batch creating 2500 items using template item.json into table things...";
     "Batch putting item 1000"; "Batch putting item 2000"; "Done."]
  /\ stdout (snd run)
     <> ["Batch putting item 1000"; "Batch putting item 2000"; "Done."].
Proof.
  cbv zeta.
  assert (Hout : stdout (snd (script (sample_env sample_template)
                   (sample_argv "2500" (Some "true")) (initial (empty_table reliable))))
    = ["Batch creating 2500 items using template item.json into table things...";
       "Batch putting item 1000"; "Batch putting item 2000"; "Done."])
    by (vm_compute; reflexivity).
  split; [exact Hout|]. rewrite Hout. discriminate.
Qed.







(** C1. Given [--commit=false] the script does not run dry: [bool] of the
    text [false] is true, so the three items are put, one request reaches the
    table and no line carries the dry-run marker. *)
Theorem commit_false_text_writes :
  let run := script (sample_env sample_template) commit_false_argv
               (initial (empty_table reliable)) in
  _get_args commit_false_argv
  = Ok {| file := "item.json"; table := "things"; number := "3"; commit := true |}
  /\ fst run = Ok tt
  /\ stdout (snd run)
     = ["Batch creating 3 items using template item.json into table things...";
        "Done."]
  /\ length (puts (log (snd run))) = 3%nat
  /\ length (requests (store (snd run))) = 1%nat
  /\ length (rows (store (snd run))) = 3%nat.
Proof. vm_compute. repeat split. Qed.

(** The claim of C8 read literally fails: ten thousand million minutes
    ahead is past the last [datetime], so the helper raises instead of
    returning; and at 2^34 seconds and 999999 microseconds (in the year
    2514) the float nearest to the time is the next whole second, which
    [int] then keeps. *)
Lemma timestamp_helper_can_overflow :
  fst (_get_future_timestamp_seconds (sample_env sample_template) 10000000000
         (initial (empty_table reliable)))
  = Raise (OverflowError "date value out of range")
  /\ fst (_get_future_timestamp_seconds
            {| read_text := read_text (sample_env sample_template);
               uuid4 := uuid4 (sample_env sample_template);
               utcnow := fun _ => 2 ^ 34 * us_per_second + 999999;
               format_item := sample_repr |}
            0 (initial (empty_table reliable)))
     = Ok (2 ^ 34 + 1)
  /\ Z.quot (2 ^ 34 * us_per_second + 999999) us_per_second = 2 ^ 34.
Proof. vm_compute. repeat split. Qed.


(** * Further properties of the script *)

(** ** The lines of a run *)

Lemma append_inj_l (p a b : string) : p +:+ a = p +:+ b -> a = b.
Proof.
  induction p as [|c p IH]; cbn; [auto|]. intros Heq. injection Heq as Heq. auto.
Qed.

Section LineFacts.
Context {B : Type} `{BatchWriter B}.
Variables (E : env) (args : Namespace) (template : string).

(** A line of a turn: the prefix of the mode, then a text that is not
    [Done.]. *)

Lemma progress_lines (i : Z) : Forall (turn_line args) (progress args i).
Proof.
  unfold progress. destruct (i mod 1000 =? 0); constructor; [|constructor].
  eexists. split; [reflexivity|]. cbn. discriminate.
Qed.

Lemma turn_out_lines k (b : B) r b' l o :
  turn_log E args template k b r b' l o -> Forall (turn_line args) o.
Proof.
  inversion 1; subst; try apply progress_lines.
  apply Forall_app. split; [apply progress_lines|].
  constructor; [|constructor]. eexists. split; [reflexivity|]. cbn. discriminate.
Qed.

Lemma turns_out_lines k n (b : B) r b' l o :
  turns_log E args template k n b r b' l o -> Forall (turn_line args) o.
Proof.
  induction 1 as [k b|k n b b1 b2 l1 l2 o1 o2 r Ht Hts IH|k n b b1 l1 o1 e Ht].
  - constructor.
  - apply Forall_app. split; [eapply turn_out_lines; eassumption|assumption].
  - eapply turn_out_lines; eassumption.
Qed.

Lemma body_out_lines (b : B) r b' l o :
  body_log E args template b r b' l o -> Forall (turn_line args) o.
Proof.
  destruct 1 as [e Hbad|n r b' l o Hn Hts]; [constructor|].
  eapply turns_out_lines; eassumption.
Qed.

Lemma header_is_turn_line : turn_line args (header args).
Proof. eexists. split; [reflexivity|]. cbn. discriminate. Qed.

Lemma turn_line_not_done (line : string) : turn_line args line -> line <> done_line args.
Proof.
  intros (rest & -> & Hne) Heq. unfold done_line in Heq.
  now apply append_inj_l in Heq.
Qed.
End LineFacts.



(** X2. When the template cannot be read, the run has printed the
    announcement and nothing else, raises what [open] raised, and has not
    touched the store: no session was entered. *)
Theorem unreadable_template_opens_no_session {B} `{BatchWriter B} (E : env)
    (args : Namespace) (s : B) (e : exn) :
  read_text E (file args) = Raise e ->
  main E args (initial s)
  = (Raise e, {| stdout := [header args]; store := s; uuid_calls := 0;
                 clock_reads := 0; log := [] |}).
Proof.
  intros Hread. unfold main, bind. unfold print at 1.
  cbn [initial stdout store uuid_calls clock_reads log app].
  unfold lift. rewrite Hread. reflexivity.
Qed.

(** X3. When the count is not a number for [int], the error comes
    once the session is open: the run enters and closes a session with no
    call in between, prints the announcement alone and exits with status 1,
    with the [ValueError] of [int] unless closing the session raises. *)
Theorem bad_count_fails_inside_the_session {B} `{BatchWriter B} (E : env)
    (args : Namespace) (s : B) (template : string) (e : exn) :
  read_text E (file args) = Ok template ->
  py_int (number args) = Raise e ->
  let run := main E args (initial s) in
  let closed := batch_exit (batch_writer s) in
  map fst (log (snd run)) = [Enter; Exit (fst closed)]
  /\ store (snd run) = snd closed
  /\ stdout (snd run) = [header args]
  /\ fst run = Raise (match fst closed with Some e' => e' | None => e end)
  /\ exit_status (fst run) <> 0.
Proof.
  intros Hread Hbad. cbv zeta.
  pose proof (main_run E args s) as Hrun. cbv zeta in Hrun. rewrite Hread in Hrun.
  destruct Hrun as (rb & b2 & mid & out & Hbody & Hlog & Hst & Hr & Hout).
  destruct Hbody as [e0 Hbad0|n r b' l o Hn Hts]; [|congruence].
  replace e0 with e in * by congruence.
  assert (Hres : fst (main E args (initial s))
                 = Raise (match fst (batch_exit (batch_writer s)) with
                          | Some e' => e' | None => e end))
    by (rewrite Hr; destruct (fst (batch_exit (batch_writer s))); reflexivity).
  rewrite Hlog, Hst, Hout, Hres. cbn [is_ok app map fst].
  repeat split. apply (exit_status_raise (A:=unit)).
Qed.

Lemma bad_count_fails_inside_the_session_witness :
  stdout (snd (main (sample_env sample_template)
    {| file := "item.json"; table := "things"; number := "ten"; commit := true |}
    (initial (empty_table reliable))))
  = ["Batch creating ten items using template item.json into table things..."].
Proof.
  destruct (bad_count_fails_inside_the_session (sample_env sample_template)
    {| file := "item.json"; table := "things"; number := "ten"; commit := true |}
    (empty_table reliable) sample_template invalid_literal eq_refl eq_refl)
    as (_ & _ & Hout & _).
  exact Hout.
Defined.

Lemma unreadable_template_opens_no_session_witness :
  log (snd (main (sample_env sample_template)
    {| file := "missing.json"; table := "things"; number := "3"; commit := true |}
    (initial (empty_table reliable)))) = [].
Proof.
  rewrite (unreadable_template_opens_no_session (sample_env sample_template)
    {| file := "missing.json"; table := "things"; number := "3"; commit := true |}
    (empty_table reliable) (OSError "No such file or directory") eq_refl).
  reflexivity.
Defined.

(** X6. A dry run never calls [put_item], whatever the template, the
    count and the clock do, and the store sees no request. *)
Theorem dry_run_never_puts {B} `{BatchWriterLaws B} (E : env)
    (args : Namespace) (s : B) :
  commit args = false ->
  let run := main E args (initial s) in
  puts (log (snd run)) = []
  /\ requests (store (snd run)) = requests s.
Proof.
  intros Hc. cbv zeta.
  pose proof (main_run E args s) as Hrun. cbv zeta in Hrun.
  destruct (read_text E (file args)) as [template|e].
  - destruct Hrun as (rb & b2 & mid & out & Hbody & Hlog & Hst & _).
    assert (Hmid : puts mid = [] /\ b2 = batch_writer s).
    { destruct Hbody as [e0 Hbad|n r b' l o Hn Hts]; [auto|].
      eapply turns_dry; eassumption. }
    destruct Hmid as [Hp ->].
    rewrite Hlog, puts_session, Hst. split; [exact Hp|apply idle_session_silent].
  - destruct Hrun as (_ & -> & -> & _). auto.
Qed.

Lemma dry_run_never_puts_witness :
  puts (log (snd (main (sample_env "[$BUILD, $UNKNOWN]")
    {| file := "item.json"; table := "things"; number := "3"; commit := false |}
    (initial (empty_table reliable))))) = [].
Proof.
  destruct (dry_run_never_puts (sample_env "[$BUILD, $UNKNOWN]")
    {| file := "item.json"; table := "things"; number := "3"; commit := false |}
    (empty_table reliable) eq_refl) as [Hp _].
  exact Hp.
Defined.

(** ** The items put *)

(** X7. In every run the j-th item put is the item rendered at turn
    j: nothing is put that was not rendered, nothing is skipped, repeated or
    reordered; and in commit mode at most one rendered item (the one of a turn
    that failed) is not put. *)
Theorem puts_are_the_rendered_items_in_order {B} `{BatchWriter B} (E : env)
    (args : Namespace) (s : B) (template : string) :
  read_text E (file args) = Ok template ->
  let l := log (snd (main E args (initial s))) in
  (forall j item x, puts l !! j = Some (item, x) ->
     exists text, substitute (vars_at E j) template = Ok text
                  /\ json_loads text = Ok item)
  /\ (length (puts l) <= length (substitutions l))%nat
  /\ (commit args = true -> (length (substitutions l) <= S (length (puts l)))%nat)
  /\ (commit args = true -> fst (main E args (initial s)) = Ok tt ->
      length (puts l) = length (substitutions l)).
Proof.
  intros Hread. cbv zeta.
  pose proof (main_run E args s) as Hrun. cbv zeta in Hrun. rewrite Hread in Hrun.
  destruct Hrun as (rb & b2 & mid & out & Hbody & Hlog & _ & Hr & _).
  rewrite Hlog, puts_session, substitutions_session.
  destruct Hbody as [e0 Hbad|n r b' l o Hn Hts].
  - cbn. repeat split; auto. intros j item x Hj. discriminate.
  - destruct (turns_puts_items E args template _ _ _ _ _ _ _ Hts)
      as (Hitems & Hle & Hge & Heq).
    repeat split; try assumption.
    + intros j item x Hj. specialize (Hitems j item x Hj). cbn in Hitems.
      unfold item_at in Hitems.
      destruct (substitute (vars_at E j) template) as [text|e]; [|discriminate].
      exists text. auto.
    + intros Hc Hok. apply Heq; [assumption|]. rewrite Hr in Hok.
      destruct (fst (batch_exit b')); [discriminate|assumption].
Qed.

Lemma puts_are_the_rendered_items_in_order_witness :
  (length (puts (log (snd (main (sample_env sample_template)
    {| file := "item.json"; table := "things"; number := "4"; commit := true |}
    (initial (empty_table reliable))))))
   <= length (substitutions (log (snd (main (sample_env sample_template)
    {| file := "item.json"; table := "things"; number := "4"; commit := true |}
    (initial (empty_table reliable)))))))%nat.
Proof.
  destruct (puts_are_the_rendered_items_in_order (sample_env sample_template)
    {| file := "item.json"; table := "things"; number := "4"; commit := true |}
    (empty_table reliable) sample_template eq_refl) as (_ & Hle & _).
  exact Hle.
Defined.

Lemma template_vars_uuid (uuid : string) (now build : Z) :
  template_vars uuid now build !! "UUID" = Some (PyStr uuid).
Proof. unfold template_vars. now rewrite !lookup_insert. Qed.

(** X8. The mapping of the j-th substitution holds the j-th identifier
    drawn and the constant [BAR]: every turn draws its own identifier, so
    two turns whose draws differ substitute different [UUID] values. *)
Theorem each_turn_substitutes_its_own_uuid {B} `{BatchWriter B} (E : env)
    (args : Namespace) (s : B) :
  let subs := substitutions (log (snd (main E args (initial s)))) in
  (forall j vars, subs !! j = Some vars ->
     vars !! "UUID" = Some (PyStr (uuid4 E j))
     /\ vars !! "FOO" = Some (PyStr "BAR")
     /\ forall name, is_Some (vars !! name) <-> In name supported)
  /\ (forall i j vi vj, subs !! i = Some vi -> subs !! j = Some vj ->
        uuid4 E i <> uuid4 E j -> vi !! "UUID" <> vj !! "UUID").
Proof.
  cbv zeta.
  assert (Hsub : exists m, substitutions (log (snd (main E args (initial s))))
                           = map (vars_at E) (seq 0 m)).
  { pose proof (main_run E args s) as Hrun. cbv zeta in Hrun.
    destruct (read_text E (file args)) as [template|e].
    - destruct Hrun as (rb & b2 & mid & out & Hbody & Hlog & _).
      rewrite Hlog, substitutions_session.
      destruct Hbody as [e0 Hbad|n r b' l o Hn Hts]; [exists 0%nat; reflexivity|].
      destruct (turns_substitutions E args template _ _ _ _ _ _ _ Hts) as (m & _ & Hs & _).
      eauto.
    - destruct Hrun as (_ & -> & _). exists 0%nat. reflexivity. }
  destruct Hsub as [m ->].
  assert (Hat : forall j vars, map (vars_at E) (seq 0 m) !! j = Some vars ->
                  vars = vars_at E j).
  { intros j vars Hj. apply list_lookup_fmap_Some in Hj as (k & -> & Hk).
    apply lookup_seq in Hk as [-> _]. reflexivity. }
  split.
  - intros j vars Hj. rewrite (Hat j vars Hj). unfold vars_at, template_vars.
    rewrite !lookup_insert. repeat split.
    + apply (template_vars_supported (uuid4 E j) (now_at E j) (Z.of_nat (S j)) name).
    + apply (template_vars_supported (uuid4 E j) (now_at E j) (Z.of_nat (S j)) name).
  - intros i j vi vj Hi Hj Hne. rewrite (Hat i vi Hi), (Hat j vj Hj).
    unfold vars_at. rewrite !template_vars_uuid. congruence.
Qed.

Lemma each_turn_substitutes_its_own_uuid_witness :
  vars_at (sample_env sample_template) 2 !! "UUID"
  = Some (PyStr "00000000-0000-4000-8000-100000000002").
Proof.
  assert (Hl : substitutions (log (snd (main (sample_env sample_template)
      {| file := "item.json"; table := "things"; number := "3"; commit := false |}
      (initial (empty_table reliable))))) !! 2%nat
      = Some (vars_at (sample_env sample_template) 2))
    by (vm_compute; reflexivity).
  destruct (each_turn_substitutes_its_own_uuid (sample_env sample_template)
    {| file := "item.json"; table := "things"; number := "3"; commit := false |}
    (empty_table reliable)) as [Hone _].
  destruct (Hone 2%nat _ Hl) as (Hu & _).
  etrans; [exact Hu|]. vm_compute. reflexivity.
Defined.

(** ** Which templates substitute *)

Lemma convert_all_ok_iff (mapping : gmap string py_value) (ps : list piece) :
  is_ok (convert_all mapping ps) = true <->
  ~ In Invalid ps
  /\ forall name, In name (placeholder_names ps) -> is_Some (mapping !! name).
Proof.
  induction ps as [|p ps IH]; [cbn; intuition|].
  assert (Hrest : forall s : string,
            is_ok (rbind (@Ok string s) (fun s0 =>
                     rbind (convert_all mapping ps) (fun t => Ok (s0 +:+ t)))) = true
            <-> is_ok (convert_all mapping ps) = true).
  { intros s. cbn. destruct (convert_all mapping ps); cbn; tauto. }
  destruct p as [c| |n|n|]; cbn [convert_all convert placeholder_names omap].
  - rewrite Hrest, IH. cbn. intuition discriminate.
  - rewrite Hrest, IH. cbn. intuition discriminate.
  - destruct (mapping !! n) as [v|] eqn:Hn.
    + rewrite Hrest, IH. cbn. split.
      * intros [Hinv Hall]. split; [intuition discriminate|].
        intros name [<-|Hin]; [rewrite Hn; eauto|auto].
      * intros [Hinv Hall]. split; [intuition|]. intros name Hin. apply Hall. now right.
    + cbn. split; [discriminate|]. intros [_ Hall].
      destruct (Hall n (or_introl eq_refl)) as [v Hv]. congruence.
  - destruct (mapping !! n) as [v|] eqn:Hn.
    + rewrite Hrest, IH. cbn. split.
      * intros [Hinv Hall]. split; [intuition discriminate|].
        intros name [<-|Hin]; [rewrite Hn; eauto|auto].
      * intros [Hinv Hall]. split; [intuition|]. intros name Hin. apply Hall. now right.
    + cbn. split; [discriminate|]. intros [_ Hall].
      destruct (Hall n (or_introl eq_refl)) as [v Hv]. congruence.
  - cbn. split; [discriminate|]. intros [Hinv _]. exfalso. apply Hinv. now left.
Qed.

(** X9. The mapping of [main] substitutes a template exactly when
    the template has no ill-formed [$] and refers to no name other than
    [UUID], [NOW], [BUILD] and [FOO]; this does not depend on the values, so
    a template that substitutes at one turn substitutes at every turn. *)
Theorem substitution_succeeds_iff_names_supported (template uuid : string)
    (now build : Z) :
  (is_ok (substitute (template_vars uuid now build) template) = true <->
   ~ In Invalid (pieces template)
   /\ forall name, references template name -> In name supported)
  /\ forall uuid' now' build',
       is_ok (substitute (template_vars uuid' now' build') template)
       = is_ok (substitute (template_vars uuid now build) template).
Proof.
  assert (Hiff : forall u n b,
    is_ok (substitute (template_vars u n b) template) = true <->
    ~ In Invalid (pieces template)
    /\ forall name, references template name -> In name supported).
  { intros u n b. unfold substitute, references. rewrite convert_all_ok_iff.
    split; intros [Hinv Hall]; (split; [assumption|]); intros name Hin.
    - apply (template_vars_supported u n b). auto.
    - apply (template_vars_supported u n b). auto. }
  split; [apply Hiff|]. intros u n b.
  pose proof (Hiff u n b) as H1. pose proof (Hiff uuid now build) as H2.
  destruct (is_ok (substitute (template_vars u n b) template)),
    (is_ok (substitute (template_vars uuid now build) template)); intuition.
Qed.

(** ** The timestamp helper and the range of [datetime] *)

(** X10. With the clock inside the range of [datetime], the helper
    returns exactly when the clock plus the offset is inside it too, and
    raises [OverflowError] otherwise; either way it reads the clock once and
    touches nothing else. *)
Theorem timestamp_helper_returns_iff_in_range {B} `{BatchWriter B} (E : env)
    (minutes : Z) (w : world B) :
  in_datetime_range (utcnow E (clock_reads w)) = true ->
  let sum := utcnow E (clock_reads w) + minutes * 60 * us_per_second in
  let run := _get_future_timestamp_seconds E minutes w in
  (in_datetime_range sum = true -> fst run = Ok (int_of_float (timestamp sum)))
  /\ (in_datetime_range sum = false -> exists msg, fst run = Raise (OverflowError msg))
  /\ snd run = {| stdout := stdout w; store := store w; uuid_calls := uuid_calls w;
                  clock_reads := S (clock_reads w); log := log w |}.
Proof.
  intros Hclock. cbv zeta.
  unfold _get_future_timestamp_seconds, bind, datetime_now. rewrite Hclock.
  unfold lift at 1. unfold timedelta_minutes.
  set (us := minutes * 60 * us_per_second).
  set (now := utcnow E (clock_reads w)) in *.
  assert (Hnow : datetime_min <= now <= datetime_max).
  { unfold in_datetime_range in Hclock. apply andb_true_iff in Hclock as [H1 H2].
    apply Z.leb_le in H1, H2. lia. }
  pose proof (Z.div_mod us (86400 * us_per_second) ltac:(unfold us_per_second; lia)) as Hdm.
  pose proof (Z.mod_pos_bound us (86400 * us_per_second)
                ltac:(unfold us_per_second; lia)) as Hmod.
  destruct ((-999999999 <=? us / (86400 * us_per_second))
            && (us / (86400 * us_per_second) <=? 999999999)) eqn:Hdays.
  - unfold lift, datetime_add. destruct (in_datetime_range (now + us)); cbn.
    + repeat split; [discriminate].
    + repeat split; [discriminate|]. intros _. eauto.
  - cbn. split; [|split; [eauto|reflexivity]].
    intros Hin. exfalso.
    unfold in_datetime_range in Hin. apply andb_true_iff in Hin as [H1 H2].
    apply Z.leb_le in H1, H2.
    apply andb_false_iff in Hdays as [Hd|Hd]; apply Z.leb_gt in Hd;
      unfold datetime_min, datetime_max, us_per_second in *; lia.
Qed.

Lemma timestamp_helper_returns_iff_in_range_witness :
  clock_reads (snd (_get_future_timestamp_seconds (sample_env sample_template) (-30)
                      (initial (empty_table reliable)))) = 1%nat.
Proof.
  destruct (timestamp_helper_returns_iff_in_range (sample_env sample_template) (-30)
    (initial (empty_table reliable)) eq_refl) as (_ & _ & Hw).
  rewrite Hw. reflexivity.
Defined.

(** ** Progress lines *)

(** The turns divisible by 1000 among the first [n] are the multiples
    [1000 * j] for [j] from 1 to [n / 1000]. *)
Lemma thousandth_turns (f : Z -> string) (n : nat) :
  flat_map (fun k => if Z.of_nat (S k) mod 1000 =? 0 then [f (Z.of_nat (S k))] else [])
    (seq 0 n)
  = map (fun j => f (1000 * Z.of_nat j)) (seq 1 (n / 1000)).
Proof.
  induction n as [|n IH]; [reflexivity|].
  rewrite seq_S, flat_map_app, IH. cbn [Nat.add flat_map]. rewrite app_nil_r.
  pose proof (Nat.div_mod_eq n 1000) as Hn.
  pose proof (Nat.mod_upper_bound n 1000 ltac:(lia)) as Hr.
  destruct (Z.of_nat (S n) mod 1000 =? 0) eqn:Hm.
  - apply Z.eqb_eq in Hm.
    assert (Hq : (S n / 1000 = S (n / 1000))%nat /\ (S n = 1000 * S (n / 1000))%nat).
    { assert (Hz : (S n mod 1000 = 0)%nat).
      { apply Nat2Z.inj. rewrite Nat2Z.inj_mod. exact Hm. }
      pose proof (Nat.div_mod_eq (S n) 1000) as Hs. rewrite Hz in Hs.
      assert (S n / 1000 = S (n / 1000))%nat by lia. split; lia. }
    destruct Hq as [-> Hs]. rewrite seq_S, map_app. cbn [map Nat.add].
    do 3 f_equal. lia.
  - apply Z.eqb_neq in Hm.
    assert (Hq : (S n / 1000 = n / 1000)%nat).
    { assert (Hz : (S n mod 1000 <> 0)%nat).
      { intros Hz. apply Hm. pose proof (Nat2Z.inj_mod (S n) 1000) as Hzm.
        rewrite Hz in Hzm. symmetry. exact Hzm. }
      pose proof (Nat.div_mod_eq (S n) 1000) as Hs.
      pose proof (Nat.mod_upper_bound (S n) 1000 ltac:(lia)) as Hb. lia. }
    rewrite Hq. now rewrite app_nil_r.
Qed.

(** X11. A commit run that completes prints, between the
    announcement and [Done.], one progress line for each multiple of 1000 up
    to the count, in order, and nothing else. *)
Theorem commit_run_prints_a_line_per_thousand {B} `{BatchWriter B} (E : env)
    (args : Namespace) (s : B) (template : string) (n : Z) :
  commit args = true ->
  read_text E (file args) = Ok template ->
  py_int (number args) = Ok n ->
  renders E template (Z.to_nat n) = true ->
  fst (session (items_at E template (seq 0 (Z.to_nat n))) s) = None ->
  stdout (snd (main E args (initial s)))
  = header args
    :: map (fun j => "Batch putting item " +:+ str_of_int (1000 * Z.of_nat j))
         (seq 1 (Z.to_nat n / 1000))
    ++ ["Done."].
Proof.
  intros Hc Hread Hn Hrenders Hstore.
  destruct (main_complete E args s template n Hread Hn Hrenders) as (_ & Hout & _).
  { rewrite Hc. exact Hstore. }
  rewrite Hout.
  rewrite (flat_map_ext _ _ (fun k => turn_lines_commit E args template k Hc)).
  rewrite thousandth_turns with
    (f := fun i => "Batch putting item " +:+ str_of_int i).
  unfold done_line, msg_prefix. rewrite Hc. reflexivity.
Qed.

Lemma commit_run_prints_a_line_per_thousand_witness :
  stdout (snd (main (sample_env sample_template)
    {| file := "item.json"; table := "things"; number := "1001"; commit := true |}
    (initial (empty_table reliable))))
  = ["Batch creating 1001 items using template item.json into table things...";
     "Batch putting item 1000"; "Done."].
Proof.
  assert (Hr : renders (sample_env sample_template) sample_template (Z.to_nat 1001) = true)
    by (vm_compute; reflexivity).
  assert (Hs : fst (session (items_at (sample_env sample_template) sample_template
                       (seq 0 (Z.to_nat 1001))) (empty_table reliable)) = None)
    by (vm_compute; reflexivity).
  pose proof (commit_run_prints_a_line_per_thousand (sample_env sample_template)
    {| file := "item.json"; table := "things"; number := "1001"; commit := true |}
    (empty_table reliable) sample_template 1001 eq_refl eq_refl eq_refl Hr Hs) as Hw.
  etrans; [exact Hw|]. vm_compute. reflexivity.
Defined.

(** ** A turn that cannot render *)

Section RenderFails.
Context {B : Type} `{BatchWriter B}.
Variables (E : env) (args : Namespace) (template : string).

(** When the turns before turn [k + j + 1] render and are taken by the
    store and that turn cannot render, the loop ends there. *)
Lemma turns_render_fails k n (b : B) r b' l o :
  turns_log E args template k n b r b' l o ->
  forall j e,
  (j < n)%nat ->
  (forall i, (k <= i < k + j)%nat -> turn_renders E template i = true) ->
  (commit args = true -> fst (put_all (items_at E template (seq k j)) b) = None) ->
  in_datetime_range (utcnow E (k + j)) = true ->
  item_at E template (k + j) = Raise e ->
  r = Raise e
  /\ substitutions l = map (vars_at E) (seq k (S j))
  /\ puts l = (if commit args
               then map (fun item => (item, None)) (items_at E template (seq k j))
               else [])
  /\ b' = (if commit args then snd (put_all (items_at E template (seq k j)) b) else b)
  /\ o = flat_map (turn_lines E args template) (seq k j)
         ++ progress args (Z.of_nat (S (k + j))).
Proof.
  induction 1 as [k b|k n b b1 b2 l1 l2 o1 o2 r Ht Hts IH|k n b b1 l1 o1 e0 Ht];
    intros j e Hj Hvalid Hstore Hclock Hitem.
  - lia.
  - destruct j as [|j].
    + rewrite Nat.add_0_r in *. inversion Ht; subst; congruence.
    + destruct (turn_renders_item E template k) as [Hck [item0 Hi0]];
        [apply Hvalid; lia|].
      replace (k + S j)%nat with (S k + j)%nat in * by lia.
      cbn [seq flat_map map]. rewrite (items_at_cons E template _ _ _ Hi0) in *.
      rewrite substitutions_app, puts_app. unfold turn_lines at 1. rewrite Hi0.
      inversion Ht; subst.
      * match goal with Hc : commit args = false |- _ => rename Hc into Hcm end.
        destruct (IH j e) as (-> & -> & Hp & -> & ->);
          [lia|intros i Hi; apply Hvalid; lia|congruence|assumption|assumption|].
        rewrite Hp, Hcm. replace item with item0 by congruence.
        cbn. rewrite <- !app_assoc. repeat split.
      * match goal with Hc : commit args = true |- _ => rename Hc into Hcm end.
        specialize (Hstore Hcm). cbn [seq] in Hstore.
        rewrite (items_at_cons E template _ _ _ Hi0) in Hstore.
        replace item with item0 in * by congruence.
        match goal with Hp : put_item item0 b = _ |- _ => rename Hp into Hput end.
        cbn [put_all] in Hstore |- *. rewrite Hput in Hstore |- *.
        destruct (IH j e) as (-> & -> & Hp & -> & ->);
          [lia|intros i Hi; apply Hvalid; lia|auto|assumption|assumption|].
        rewrite Hp, Hcm. cbn. rewrite app_nil_r, <- app_assoc. repeat split.
  - destruct j as [|j].
    + rewrite Nat.add_0_r in *. cbn [seq items_at omap map flat_map put_all snd app].
      inversion Ht; subst; try congruence.
      replace e0 with e by congruence.
      destruct (commit args); repeat split.
    + exfalso.
      destruct (turn_renders_item E template k) as [Hck [item0 Hi0]];
        [apply Hvalid; lia|].
      inversion Ht; subst; try congruence.
      match goal with Hc : commit args = true |- _ => specialize (Hstore Hc) end.
      cbn [seq] in Hstore. rewrite (items_at_cons E template _ _ _ Hi0) in Hstore.
      replace item with item0 in * by congruence.
      cbn [put_all] in Hstore.
      match goal with Hp : put_item item0 b = _ |- _ => rewrite Hp in Hstore end.
      discriminate.
Qed.
End RenderFails.

(** X12. A turn that cannot render ends the whole run: when the first
    j turns render (and the store takes their items and closes without
    error) and turn j + 1 fails to substitute or to decode, the run raises
    that error and exits non-zero; exactly j + 1 substitutions were made, the
    j earlier items were put (none in a dry run) and stay with the store,
    which is closed; no later turn runs and [Done.] is not printed. *)
Theorem render_failure_aborts_the_run {B} `{BatchWriter B} (E : env)
    (args : Namespace) (s : B) (template : string) (n : Z) (j : nat) (e : exn) :
  read_text E (file args) = Ok template ->
  py_int (number args) = Ok n ->
  (j < Z.to_nat n)%nat ->
  renders E template j = true ->
  in_datetime_range (utcnow E j) = true ->
  item_at E template j = Raise e ->
  let items := if commit args then items_at E template (seq 0 j) else [] in
  fst (session items s) = None ->
  let run := main E args (initial s) in
  fst run = Raise e
  /\ exit_status (fst run) <> 0
  /\ substitutions (log (snd run)) = map (vars_at E) (seq 0 (S j))
  /\ puts (log (snd run)) = map (fun item => (item, None)) items
  /\ store (snd run) = snd (session items s)
  /\ stdout (snd run)
     = header args :: flat_map (turn_lines E args template) (seq 0 j)
       ++ progress args (Z.of_nat (S j)).
Proof.
  intros Hread Hn Hj Hrenders Hclock Hitem items Hstore run.
  pose proof (main_run E args s) as Hrun. cbv zeta in Hrun. rewrite Hread in Hrun.
  destruct Hrun as (rb & b2 & mid & out & Hbody & Hlog & Hst & Hr & Hout).
  destruct Hbody as [e0 Hbad|n' r b' l o Hn' Hts]; [congruence|].
  replace n' with n in * by congruence.
  apply session_accepts in Hstore as (Hputs & Hexit & Hsession).
  destruct (turns_render_fails E args template _ _ _ _ _ _ _ Hts j e Hj)
    as (-> & Hsub & Hp & -> & ->); try assumption.
  - intros i Hi. apply (proj1 (renders_spec E template _) Hrenders). lia.
  - intros Hc. subst items. rewrite Hc in Hputs. exact Hputs.
  - assert (Hb : (if commit args
                  then snd (put_all (items_at E template (seq 0 j)) (batch_writer s))
                  else batch_writer s)
                 = snd (put_all items (batch_writer s)))
      by (subst items; destruct (commit args); reflexivity).
    rewrite Hb in *. rewrite Hexit in Hr, Hlog.
    subst run. rewrite Hr, Hout, Hlog, puts_session, substitutions_session, Hr.
    cbn [is_ok]. rewrite app_nil_r.
    repeat split; try assumption.
    + apply (exit_status_raise (A:=unit)).
    + rewrite Hp. subst items. destruct (commit args); reflexivity.
    + congruence.
Qed.

Lemma render_failure_aborts_the_run_witness :
  length (puts (log (snd (main flaky_env
    {| file := "item.json"; table := "things"; number := "5"; commit := true |}
    (initial (empty_table reliable)))))) = 2%nat.
Proof.
  destruct (render_failure_aborts_the_run flaky_env
    {| file := "item.json"; table := "things"; number := "5"; commit := true |}
    (empty_table reliable) escaped_template 5 2 (JSONDecodeError "Invalid \escape")
    eq_refl eq_refl ltac:(vm_compute; lia) ltac:(vm_compute; reflexivity)
    eq_refl ltac:(vm_compute; reflexivity) ltac:(vm_compute; reflexivity))
    as (_ & _ & _ & Hp & _).
  rewrite Hp. vm_compute. reflexivity.
Defined.

(** ** What a zero status means *)

(** X13. A run ends with status 0 only if the template was read, the
    count was a number, every one of its turns rendered an item and, in
    commit mode, [put_item] took each of them and the session closed without
    error: the script never reports success for a partial load. *)
Theorem zero_status_means_every_turn_rendered {B} `{BatchWriter B} (E : env)
    (args : Namespace) (s : B) :
  let run := main E args (initial s) in
  exit_status (fst run) = 0 ->
  exists template n,
    read_text E (file args) = Ok template
    /\ py_int (number args) = Ok n
    /\ renders E template (Z.to_nat n) = true
    /\ length (substitutions (log (snd run))) = Z.to_nat n
    /\ let items := if commit args
                    then items_at E template (seq 0 (Z.to_nat n)) else [] in
       puts (log (snd run)) = map (fun item => (item, None)) items
       /\ session items s = (None, store (snd run)).
Proof.
  cbv zeta. rewrite exit_status_ok. intros Hok.
  pose proof (main_run E args s) as Hrun. cbv zeta in Hrun.
  destruct (read_text E (file args)) as [template|e] eqn:Hread.
  2:{ destruct Hrun as (Hr & _). rewrite Hr in Hok. discriminate. }
  destruct Hrun as (rb & b2 & mid & out & Hbody & Hlog & Hst & Hr & _).
  rewrite Hr in Hok.
  destruct (batch_exit b2) as [[e|] b3] eqn:Hexit; cbn [fst snd] in *; [discriminate|].
  destruct Hbody as [e0 Hbad|n r b' l o Hn Hts]; [discriminate|].
  destruct r as [[]|e]; [|discriminate].
  destruct (turns_ok_rendered E args template _ _ _ _ _ _ _ Hts eq_refl)
    as [Hvalid Hstore].
  assert (Hrenders : renders E template (Z.to_nat n) = true).
  { apply renders_spec. intros i Hi. apply Hvalid. lia. }
  exists template, n. split; [reflexivity|]. split; [assumption|].
  split; [assumption|].
  destruct (turns_complete E args template _ _ _ _ _ _ _ Hts)
    as (_ & _ & Hsub & _ & Hcommit & Hdry).
  { intros i Hi. apply Hvalid. lia. }
  { intros Hc. now rewrite (Hstore Hc). }
  rewrite Hlog, puts_session, substitutions_session, Hsub, length_map, length_seq.
  split; [reflexivity|]. unfold session. rewrite Hst.
  destruct (commit args) eqn:Hc.
  - destruct (Hcommit eq_refl) as [-> _]. rewrite (Hstore eq_refl), Hexit. auto.
  - destruct (Hdry eq_refl) as [-> ->]. cbn [put_all map]. rewrite Hexit. auto.
Qed.

Lemma zero_status_means_every_turn_rendered_witness :
  exists template n,
    read_text (sample_env sample_template) "item.json" = Ok template
    /\ py_int "3" = Ok n
    /\ renders (sample_env sample_template) template (Z.to_nat n) = true.
Proof.
  assert (Hzero : exit_status (fst (main (sample_env sample_template)
            {| file := "item.json"; table := "things"; number := "3"; commit := true |}
            (initial (empty_table reliable)))) = 0) by (vm_compute; reflexivity).
  destruct (zero_status_means_every_turn_rendered (sample_env sample_template)
    {| file := "item.json"; table := "things"; number := "3"; commit := true |}
    (empty_table reliable) Hzero)
    as (template & n & Hread & Hn & Hrenders & _).
  exists template, n. auto.
Defined.

(** ** A dry run as a preview of the commit run *)

Section PreviewFacts.
Context {B : Type} `{BatchWriter B}.
Variables (E : env) (args : Namespace) (template : string).

(** In commit mode the items put are a prefix of the items the turns
    render, whether or not the run gets to its end. *)
Lemma turns_puts_prefix k n (b : B) r b' l o :
  commit args = true ->
  turns_log E args template k n b r b' l o ->
  map fst (puts l) `prefix_of` items_at E template (seq k n).
Proof.
  intros Hc.
  induction 1 as [k b|k n b b1 b2 l1 l2 o1 o2 r Ht Hts IH|k n b b1 l1 o1 e Ht].
  - apply prefix_nil.
  - inversion Ht; subst; [congruence|].
    rewrite puts_app. cbn [seq].
    match goal with Hi : item_at E template k = Ok _ |- _ =>
      rewrite (items_at_cons E template _ _ _ Hi) end.
    cbn. now apply prefix_cons.
  - inversion Ht; subst; cbn [seq]; try (cbn; apply prefix_nil).
    match goal with Hi : item_at E template k = Ok _ |- _ =>
      rewrite (items_at_cons E template _ _ _ Hi) end.
    cbn. apply prefix_cons, prefix_nil.
Qed.

(** In a dry run every rendered item has its line among the lines of the
    turns. *)
Lemma dry_lines_items (ks : list nat) (item : json) :
  commit args = false ->
  In item (items_at E template ks) ->
  In (item_line E args item) (flat_map (turn_lines E args template) ks).
Proof.
  intros Hc. induction ks as [|k ks IH]; [intros []|].
  cbn [flat_map]. unfold turn_lines at 1. rewrite Hc. intros Hin.
  apply in_or_app. destruct (item_at E template k) as [item0|e] eqn:Hi.
  - rewrite (items_at_cons E template _ _ _ Hi) in Hin.
    destruct Hin as [->|Hin]; [left|right; auto].
    apply in_or_app. right. now left.
  - right. apply IH. unfold items_at in *. cbn [omap list_omap] in Hin.
    now rewrite Hi in Hin.
Qed.

(** A run that returns has read the template and the count, rendered at
    every turn, and printed the lines of the turns between the announcement
    and the closing line. *)
Lemma returned_run_rendered (s : B) :
  is_ok (fst (main E args (initial s))) = true ->
  exists tpl n,
    read_text E (file args) = Ok tpl
    /\ py_int (number args) = Ok n
    /\ renders E tpl (Z.to_nat n) = true
    /\ stdout (snd (main E args (initial s)))
       = header args :: flat_map (turn_lines E args tpl) (seq 0 (Z.to_nat n))
         ++ [done_line args].
Proof.
  intros Hok.
  pose proof (main_run E args s) as Hrun. cbv zeta in Hrun.
  destruct (read_text E (file args)) as [tpl|e] eqn:Hread.
  2:{ destruct Hrun as (Hr & _). rewrite Hr in Hok. discriminate. }
  destruct Hrun as (rb & b2 & mid & out & Hbody & Hlog & Hst & Hr & Hout).
  rewrite Hok in Hout. rewrite Hr in Hok.
  destruct (batch_exit b2) as [[e|] b3] eqn:Hexit; cbn [fst snd] in *; [discriminate|].
  destruct Hbody as [e0 Hbad|n r b' l o Hn Hts]; [discriminate|].
  destruct r as [[]|e]; [|discriminate].
  destruct (turns_ok_rendered E args tpl _ _ _ _ _ _ _ Hts eq_refl)
    as [Hvalid Hstore].
  destruct (turns_complete E args tpl _ _ _ _ _ _ _ Hts)
    as (_ & -> & _).
  { intros i Hi. apply Hvalid. lia. }
  { intros Hc. now rewrite (Hstore Hc). }
  exists tpl, n. repeat split; try assumption.
  apply renders_spec. intros i Hi. apply Hvalid. lia.
Qed.
End PreviewFacts.

(** X14. A dry run that returns is a faithful preview: with the same
    template file, count, identifiers and clock, it has printed a line for
    each item the commit run would render; whatever the store does, the
    commit run puts a prefix of these items, in order, and nothing else; and
    when the store takes them all the commit run returns too, having put
    exactly these items. *)
Theorem dry_run_previews_the_commit_run {B} `{BatchWriter B} (E : env)
    (dry wet : Namespace) (s : B) :
  commit dry = false -> commit wet = true ->
  file wet = file dry -> number wet = number dry ->
  exit_status (fst (main E dry (initial s))) = 0 ->
  exists template n,
    read_text E (file dry) = Ok template
    /\ py_int (number dry) = Ok n
    /\ let items := items_at E template (seq 0 (Z.to_nat n)) in
       let written := map fst (puts (log (snd (main E wet (initial s))))) in
       length items = Z.to_nat n
       /\ (forall item, In item items ->
             In ("[DRY RUN] Templated item: " +:+ format_item E item)
                (stdout (snd (main E dry (initial s)))))
       /\ written `prefix_of` items
       /\ (fst (session items s) = None ->
           fst (main E wet (initial s)) = Ok tt /\ written = items).
Proof.
  intros Hd Hw Hfile Hcount Hzero. apply exit_status_ok in Hzero.
  destruct (returned_run_rendered E dry s Hzero)
    as (template & n & Hread & Hn & Hrenders & Hout).
  exists template, n. split; [assumption|]. split; [assumption|]. cbv zeta.
  assert (Hreadw : read_text E (file wet) = Ok template) by congruence.
  assert (Hnw : py_int (number wet) = Ok n) by congruence.
  split; [|split; [|split]].
  - pose proof (main_run E wet s) as Hrun. cbv zeta in Hrun. rewrite Hreadw in Hrun.
    destruct Hrun as (rb & b2 & mid & out & Hbody & _).
    destruct Hbody as [e0 Hbad|n' r b' l o Hn' Hts]; [congruence|].
    replace n' with n in * by congruence.
    pose proof (proj1 (renders_spec E template _) Hrenders) as Hall.
    clear - Hall.
    assert (Hgen : forall k m, (forall j, (k <= j < k + m)%nat ->
                     turn_renders E template j = true) ->
                   length (items_at E template (seq k m)) = m).
    { clear. intros k m. revert k. induction m as [|m IH]; intros k Hall; [reflexivity|].
      cbn [seq]. destruct (turn_renders_item E template k) as (_ & item & Hi).
      { apply Hall. lia. }
      rewrite (items_at_cons E template _ _ _ Hi). cbn. f_equal. apply IH.
      intros j Hj. apply Hall. lia. }
    apply Hgen. intros j Hj. apply Hall. lia.
  - intros item Hin. rewrite Hout. right. apply in_or_app. left.
    pose proof (dry_lines_items E dry template _ item Hd Hin) as Hline.
    unfold item_line, msg_prefix in Hline. rewrite Hd in Hline. exact Hline.
  - pose proof (main_run E wet s) as Hrun. cbv zeta in Hrun. rewrite Hreadw in Hrun.
    destruct Hrun as (rb & b2 & mid & out & Hbody & Hlog & _).
    rewrite Hlog, puts_session.
    destruct Hbody as [e0 Hbad|n' r b' l o Hn' Hts]; [congruence|].
    replace n' with n in * by congruence.
    exact (turns_puts_prefix E wet template _ _ _ _ _ _ _ Hw Hts).
  - intros Hstore.
    destruct (main_complete E wet s template n Hreadw Hnw Hrenders) as (Hr & _ & _ & _ & Hp & _).
    { now rewrite Hw. }
    split; [assumption|]. rewrite Hp, Hw, map_map. cbn. apply map_id.
Qed.

Lemma dry_run_previews_the_commit_run_witness :
  exists template n,
    read_text (sample_env sample_template) "item.json" = Ok template
    /\ py_int "3" = Ok n
    /\ map fst (puts (log (snd (main (sample_env sample_template)
         {| file := "item.json"; table := "things"; number := "3"; commit := true |}
         (initial (empty_table reliable))))))
       `prefix_of` items_at (sample_env sample_template) template (seq 0 (Z.to_nat n)).
Proof.
  assert (Hzero : exit_status (fst (main (sample_env sample_template)
            {| file := "item.json"; table := "things"; number := "3"; commit := false |}
            (initial (empty_table reliable)))) = 0) by (vm_compute; reflexivity).
  destruct (dry_run_previews_the_commit_run (sample_env sample_template)
    {| file := "item.json"; table := "things"; number := "3"; commit := false |}
    {| file := "item.json"; table := "things"; number := "3"; commit := true |}
    (empty_table reliable) eq_refl eq_refl eq_refl eq_refl Hzero)
    as (template & n & Hread & Hn & _ & _ & Hp & _).
  exists template, n. auto.
Defined.

(** ** Where a failure comes from *)

Section FailureFacts.
Context {B : Type} `{BatchWriter B}.
Variables (E : env) (args : Namespace) (template : string).

Lemma exits_app (l1 l2 : list (call * B)) : exits (l1 ++ l2) = exits l1 ++ exits l2.
Proof. apply omap_app. Qed.

(** The turns never close the session. *)
Lemma turns_exits k n (b : B) r b' l o :
  turns_log E args template k n b r b' l o -> exits l = [].
Proof.
  assert (Hturn : forall k b r b' l o,
            turn_log E args template k b r b' l o -> exits l = []).
  { intros k0 b0 r0 b0' l0 o0 Ht. inversion Ht; reflexivity. }
  induction 1 as [k b|k n b b1 b2 l1 l2 o1 o2 r Ht Hts IH|k n b b1 l1 o1 e Ht].
  - reflexivity.
  - rewrite exits_app, (Hturn _ _ _ _ _ _ Ht), IH. reflexivity.
  - eapply Hturn; eassumption.
Qed.

(** Turns that stop with an exception stop at the first turn that does not
    succeed: every turn before it rendered, and the exception is the one of
    its clock, of its rendering, or of its put. *)
Lemma turns_failure k n (b : B) r b' l o e :
  turns_log E args template k n b r b' l o ->
  r = Raise e ->
  exists j, (k <= j < k + n)%nat
    /\ (forall i, (k <= i < j)%nat -> turn_renders E template i = true)
    /\ ((in_datetime_range (utcnow E j) = false
         /\ e = ValueError "year is out of range")
        \/ (in_datetime_range (utcnow E j) = true /\ item_at E template j = Raise e)
        \/ (commit args = true /\ turn_renders E template j = true
            /\ exists item, item_at E template j = Ok item
                            /\ last (puts l) = Some (item, Some e))).
Proof.
  induction 1 as [k b|k n b b1 b2 l1 l2 o1 o2 r Ht Hts IH|k n b b1 l1 o1 e0 Ht];
    intros Hr; [discriminate| |].
  - destruct (IH Hr) as (j & Hj & Hbefore & Hcause).
    assert (Hrk : turn_renders E template k = true).
    { unfold turn_renders.
      inversion Ht; subst;
        match goal with
        | Hc : in_datetime_range _ = true, Hi : item_at _ _ _ = Ok _ |- _ =>
            now rewrite Hc, Hi
        end. }
    exists j. split; [lia|]. split.
    + intros i Hi. destruct (Nat.eq_dec i k) as [->|Hne]; [assumption|].
      apply Hbefore. lia.
    + destruct Hcause as [Hclock|[Hitem|(Hc & Hrj & item & Hitem & Hlast)]];
        [left; assumption|right; left; assumption|].
      right. right. split; [assumption|]. split; [assumption|].
      exists item. split; [assumption|].
      rewrite puts_app. destruct (puts l2) as [|p ps] eqn:Hp; [discriminate|].
      rewrite <- Hlast. apply last_app_cons.
  - injection Hr as ->. exists k. split; [lia|]. split; [intros i Hi; lia|].
    inversion Ht; subst.
    + left. auto.
    + right. left. auto.
    + right. right. split; [assumption|]. split.
      * unfold turn_renders.
        match goal with
        | Hc : in_datetime_range _ = true, Hi : item_at _ _ _ = Ok _ |- _ =>
            now rewrite Hc, Hi
        end.
      * eexists. split; [eassumption|]. reflexivity.
Qed.
End FailureFacts.


